(** * ExamApp: question bank, PDF question extraction and quiz loop

    A shallow embedding of [examapp.py].  Python strings are sequences of
    Unicode code points, so [str] is [list N]; the string methods the
    program calls ([strip], [splitlines], [isdigit], [startswith],
    [split], [upper]) and the [int] constructor are modelled on code
    points with the character tables of the Unicode database shipped
    with CPython 3.11 (Unicode 14.0). *)

From Stdlib Require Import ZArith NArith Ascii String Lia.
From stdpp Require Import base option list gmap.

Abbreviation str := (list N).

(** Exceptions the modelled code can raise. *)
Inductive exn := IndexError | UnboundLocalError | EOFError | OverflowError.

Inductive result (A : Type) :=
  | Ok (a : A)
  | Raise (e : exn).
Arguments Ok {A} a.
Arguments Raise {A} e.

#[global] Instance result_ret : MRet result := @Ok.
#[global] Instance result_bind : MBind result := λ A B f m,
  match m with Ok a => f a | Raise e => Raise e end.

(** [l[i]] for a non-negative index. *)
Definition index {A} (l : list A) (i : nat) : result A :=
  match l !! i with Some a => Ok a | None => Raise IndexError end.

(** * Python strings *)
Module Py.

(** An ASCII literal as a Python string. *)
Definition lit (s : string) : str :=
  (λ a, N_of_ascii a) <$> list_ascii_of_string s.

Definition LF : N := 10.
Definition CR : N := 13.

Definition in_range (c : N) (r : N * N) : bool :=
  ((r.1 <=? c) && (c <=? r.2))%N.

(** [str.isspace] on one character (White_Space or bidirectional type
    WS, B or S). *)
Definition space_ranges : list (N * N) :=
  [(9, 13); (28, 32); (133, 133); (160, 160); (5760, 5760); (8192, 8202);
   (8232, 8233); (8239, 8239); (8287, 8287); (12288, 12288)]%N.

Definition isspace (c : N) : bool := existsb (in_range c) space_ranges.

(** Line boundaries of [str.splitlines]. *)
Definition linebreaks : list N :=
  [10; 11; 12; 13; 28; 29; 30; 133; 8232; 8233]%N.

Definition is_linebreak (c : N) : bool := bool_decide (c ∈ linebreaks).

(** Code points of the digit zero of every decimal-digit block
    (Numeric_Type=Decimal); the digits 0..9 of a block are consecutive. *)
Definition decimal_zeros : list N :=
  [
    48; 1632; 1776; 1984; 2406; 2534; 2662; 2790; 2918; 3046; 3174; 3302;
    3430; 3558; 3664; 3792; 3872; 4160; 4240; 6112; 6160; 6470; 6608; 6784;
    6800; 6992; 7088; 7232; 7248; 42528; 43216; 43264; 43472; 43504; 43600;
    44016; 65296; 66720; 68912; 69734; 69872; 69942; 70096; 70384; 70736;
    70864; 71248; 71360; 71472; 71904; 72016; 72784; 73040; 73120; 92768;
    92864; 93008; 120782; 120792; 120802; 120812; 120822; 123200; 123632;
    125264; 130032
  ]%N.

(** Characters with Numeric_Type=Digit that are not decimal: superscripts,
    subscripts, circled digits and the like. *)
Definition other_digit_ranges : list (N * N) :=
  [
    (178, 179); (185, 185); (4969, 4977); (6618, 6618); (8304, 8304); (8308,
    8313); (8320, 8329); (9312, 9320); (9332, 9340); (9352, 9360); (9450,
    9450); (9461, 9469); (9471, 9471); (10102, 10110); (10112, 10120); (10122,
    10130); (68160, 68163); (69216, 69224); (69714, 69722); (127232, 127242)
  ]%N.

Definition decimal_value (c : N) : option N :=
  (λ z, c - z)%N <$> List.find (λ z, in_range c (z, z + 9)%N) decimal_zeros.

Definition isdecimal (c : N) : bool := bool_decide (is_Some (decimal_value c)).

(** [str.isdigit] on one character. *)
Definition isdigit (c : N) : bool :=
  isdecimal c || existsb (in_range c) other_digit_ranges.

Definition is_ascii_digit (c : N) : bool := in_range c (48, 57)%N.

(** Simple upper-case mappings, as runs [(first, last, step, target of
    first)]: every [step]-th character from [first] to [last] maps to the
    target at the same offset. *)
Definition upper_runs : list (N * N * N * N) :=
  [
    (97, 122, 1, 65); (181, 181, 1, 924); (224, 246, 1, 192); (248, 254, 1,
    216); (255, 255, 1, 376); (257, 303, 2, 256); (305, 305, 1, 73); (307,
    311, 2, 306); (314, 328, 2, 313); (331, 375, 2, 330); (378, 382, 2, 377);
    (383, 383, 1, 83); (384, 384, 1, 579); (387, 389, 2, 386); (392, 392, 1,
    391); (396, 396, 1, 395); (402, 402, 1, 401); (405, 405, 1, 502); (409,
    409, 1, 408); (410, 410, 1, 573); (414, 414, 1, 544); (417, 421, 2, 416);
    (424, 424, 1, 423); (429, 429, 1, 428); (432, 432, 1, 431); (436, 438, 2,
    435); (441, 441, 1, 440); (445, 445, 1, 444); (447, 447, 1, 503); (453,
    453, 1, 452); (454, 454, 1, 452); (456, 456, 1, 455); (457, 457, 1, 455);
    (459, 459, 1, 458); (460, 460, 1, 458); (462, 476, 2, 461); (477, 477, 1,
    398); (479, 495, 2, 478); (498, 498, 1, 497); (499, 499, 1, 497); (501,
    501, 1, 500); (505, 543, 2, 504); (547, 563, 2, 546); (572, 572, 1, 571);
    (575, 576, 1, 11390); (578, 578, 1, 577); (583, 591, 2, 582); (592, 592,
    1, 11375); (593, 593, 1, 11373); (594, 594, 1, 11376); (595, 595, 1, 385);
    (596, 596, 1, 390); (598, 599, 1, 393); (601, 601, 1, 399); (603, 603, 1,
    400); (604, 604, 1, 42923); (608, 608, 1, 403); (609, 609, 1, 42924);
    (611, 611, 1, 404); (613, 613, 1, 42893); (614, 614, 1, 42922); (616, 616,
    1, 407); (617, 617, 1, 406); (618, 618, 1, 42926); (619, 619, 1, 11362);
    (620, 620, 1, 42925); (623, 623, 1, 412); (625, 625, 1, 11374); (626, 626,
    1, 413); (629, 629, 1, 415); (637, 637, 1, 11364); (640, 640, 1, 422);
    (642, 642, 1, 42949); (643, 643, 1, 425); (647, 647, 1, 42929); (648, 648,
    1, 430); (649, 649, 1, 580); (650, 651, 1, 433); (652, 652, 1, 581); (658,
    658, 1, 439); (669, 669, 1, 42930); (670, 670, 1, 42928); (837, 837, 1,
    921); (881, 883, 2, 880); (887, 887, 1, 886); (891, 893, 1, 1021); (940,
    940, 1, 902); (941, 943, 1, 904); (945, 961, 1, 913); (962, 962, 1, 931);
    (963, 971, 1, 931); (972, 972, 1, 908); (973, 974, 1, 910); (976, 976, 1,
    914); (977, 977, 1, 920); (981, 981, 1, 934); (982, 982, 1, 928); (983,
    983, 1, 975); (985, 1007, 2, 984); (1008, 1008, 1, 922); (1009, 1009, 1,
    929); (1010, 1010, 1, 1017); (1011, 1011, 1, 895); (1013, 1013, 1, 917);
    (1016, 1016, 1, 1015); (1019, 1019, 1, 1018); (1072, 1103, 1, 1040);
    (1104, 1119, 1, 1024); (1121, 1153, 2, 1120); (1163, 1215, 2, 1162);
    (1218, 1230, 2, 1217); (1231, 1231, 1, 1216); (1233, 1327, 2, 1232);
    (1377, 1414, 1, 1329); (4304, 4346, 1, 7312); (4349, 4351, 1, 7357);
    (5112, 5117, 1, 5104); (7296, 7296, 1, 1042); (7297, 7297, 1, 1044);
    (7298, 7298, 1, 1054); (7299, 7300, 1, 1057); (7301, 7301, 1, 1058);
    (7302, 7302, 1, 1066); (7303, 7303, 1, 1122); (7304, 7304, 1, 42570);
    (7545, 7545, 1, 42877); (7549, 7549, 1, 11363); (7566, 7566, 1, 42950);
    (7681, 7829, 2, 7680); (7835, 7835, 1, 7776); (7841, 7935, 2, 7840);
    (7936, 7943, 1, 7944); (7952, 7957, 1, 7960); (7968, 7975, 1, 7976);
    (7984, 7991, 1, 7992); (8000, 8005, 1, 8008); (8017, 8023, 2, 8025);
    (8032, 8039, 1, 8040); (8048, 8049, 1, 8122); (8050, 8053, 1, 8136);
    (8054, 8055, 1, 8154); (8056, 8057, 1, 8184); (8058, 8059, 1, 8170);
    (8060, 8061, 1, 8186); (8112, 8113, 1, 8120); (8126, 8126, 1, 921); (8144,
    8145, 1, 8152); (8160, 8161, 1, 8168); (8165, 8165, 1, 8172); (8526, 8526,
    1, 8498); (8560, 8575, 1, 8544); (8580, 8580, 1, 8579); (9424, 9449, 1,
    9398); (11312, 11359, 1, 11264); (11361, 11361, 1, 11360); (11365, 11365,
    1, 570); (11366, 11366, 1, 574); (11368, 11372, 2, 11367); (11379, 11379,
    1, 11378); (11382, 11382, 1, 11381); (11393, 11491, 2, 11392); (11500,
    11502, 2, 11499); (11507, 11507, 1, 11506); (11520, 11557, 1, 4256);
    (11559, 11559, 1, 4295); (11565, 11565, 1, 4301); (42561, 42605, 2,
    42560); (42625, 42651, 2, 42624); (42787, 42799, 2, 42786); (42803, 42863,
    2, 42802); (42874, 42876, 2, 42873); (42879, 42887, 2, 42878); (42892,
    42892, 1, 42891); (42897, 42899, 2, 42896); (42900, 42900, 1, 42948);
    (42903, 42921, 2, 42902); (42933, 42947, 2, 42932); (42952, 42954, 2,
    42951); (42961, 42961, 1, 42960); (42967, 42969, 2, 42966); (42998, 42998,
    1, 42997); (43859, 43859, 1, 42931); (43888, 43967, 1, 5024); (65345,
    65370, 1, 65313); (66600, 66639, 1, 66560); (66776, 66811, 1, 66736);
    (66967, 66977, 1, 66928); (66979, 66993, 1, 66940); (66995, 67001, 1,
    66956); (67003, 67004, 1, 66964); (68800, 68850, 1, 68736); (71872, 71903,
    1, 71840); (93792, 93823, 1, 93760); (125218, 125251, 1, 125184)
  ]%N.

(** Characters whose full upper-case mapping has several characters. *)
Definition upper_special : list (N * list N) :=
  [
    (223, [83; 83]); (329, [700; 78]); (496, [74; 780]); (912, [921; 776;
    769]); (944, [933; 776; 769]); (1415, [1333; 1362]); (7830, [72; 817]);
    (7831, [84; 776]); (7832, [87; 778]); (7833, [89; 778]); (7834, [65;
    702]); (8016, [933; 787]); (8018, [933; 787; 768]); (8020, [933; 787;
    769]); (8022, [933; 787; 834]); (8064, [7944; 921]); (8065, [7945; 921]);
    (8066, [7946; 921]); (8067, [7947; 921]); (8068, [7948; 921]); (8069,
    [7949; 921]); (8070, [7950; 921]); (8071, [7951; 921]); (8072, [7944;
    921]); (8073, [7945; 921]); (8074, [7946; 921]); (8075, [7947; 921]);
    (8076, [7948; 921]); (8077, [7949; 921]); (8078, [7950; 921]); (8079,
    [7951; 921]); (8080, [7976; 921]); (8081, [7977; 921]); (8082, [7978;
    921]); (8083, [7979; 921]); (8084, [7980; 921]); (8085, [7981; 921]);
    (8086, [7982; 921]); (8087, [7983; 921]); (8088, [7976; 921]); (8089,
    [7977; 921]); (8090, [7978; 921]); (8091, [7979; 921]); (8092, [7980;
    921]); (8093, [7981; 921]); (8094, [7982; 921]); (8095, [7983; 921]);
    (8096, [8040; 921]); (8097, [8041; 921]); (8098, [8042; 921]); (8099,
    [8043; 921]); (8100, [8044; 921]); (8101, [8045; 921]); (8102, [8046;
    921]); (8103, [8047; 921]); (8104, [8040; 921]); (8105, [8041; 921]);
    (8106, [8042; 921]); (8107, [8043; 921]); (8108, [8044; 921]); (8109,
    [8045; 921]); (8110, [8046; 921]); (8111, [8047; 921]); (8114, [8122;
    921]); (8115, [913; 921]); (8116, [902; 921]); (8118, [913; 834]); (8119,
    [913; 834; 921]); (8124, [913; 921]); (8130, [8138; 921]); (8131, [919;
    921]); (8132, [905; 921]); (8134, [919; 834]); (8135, [919; 834; 921]);
    (8140, [919; 921]); (8146, [921; 776; 768]); (8147, [921; 776; 769]);
    (8150, [921; 834]); (8151, [921; 776; 834]); (8162, [933; 776; 768]);
    (8163, [933; 776; 769]); (8164, [929; 787]); (8166, [933; 834]); (8167,
    [933; 776; 834]); (8178, [8186; 921]); (8179, [937; 921]); (8180, [911;
    921]); (8182, [937; 834]); (8183, [937; 834; 921]); (8188, [937; 921]);
    (64256, [70; 70]); (64257, [70; 73]); (64258, [70; 76]); (64259, [70; 70;
    73]); (64260, [70; 70; 76]); (64261, [83; 84]); (64262, [83; 84]); (64275,
    [1348; 1350]); (64276, [1348; 1333]); (64277, [1348; 1339]); (64278,
    [1358; 1350]); (64279, [1348; 1341])
  ]%N.

Definition in_run (c : N) (r : N * N * N * N) : bool :=
  let '(lo, hi, step, _) := r in
  (in_range c (lo, hi) && ((c - lo) mod step =? 0))%N.

Definition upper_char (c : N) : str :=
  match List.find (λ e, bool_decide (e.1 = c)) upper_special with
  | Some e => e.2
  | None =>
      match List.find (in_run c) upper_runs with
      | Some (lo, _, _, target) => [target + (c - lo)]%N
      | None => [c]
      end
  end.

(** [s.upper()] *)
Definition upper (s : str) : str := s ≫= upper_char.

(** Stripping the characters that satisfy [p] from the left and from the
    right end. *)
Fixpoint lstrip_with (p : N → bool) (s : str) : str :=
  match s with
  | c :: s' => if p c then lstrip_with p s' else s
  | [] => []
  end.

Definition rstrip_with (p : N → bool) (s : str) : str :=
  foldr (λ c acc, match acc with
                  | [] => if p c then [] else [c]
                  | _ => c :: acc
                  end) [] s.

(** [s.strip()] without arguments. *)
Definition strip (s : str) : str := rstrip_with isspace (lstrip_with isspace s).

(** [s.splitlines()]: [cur] is the line read so far. *)
Fixpoint splitlines_from (cur s : str) : list str :=
  match s with
  | [] => match cur with [] => [] | _ => [cur] end
  | c :: s' =>
      if is_linebreak c then
        cur :: splitlines_from []
                 match s' with
                 | c' :: s'' => if bool_decide (c = CR ∧ c' = LF) then s'' else s'
                 | [] => s'
                 end
      else splitlines_from (cur ++ [c]) s'
  end.

Definition splitlines (s : str) : list str := splitlines_from [] s.

(** [s.startswith(p)] *)
Definition startswith (p s : str) : bool := bool_decide (take (length p) s = p).

(** [s[a:b]] and [s[a:]] for non-negative bounds. *)
Definition slice {A} (a b : nat) (l : list A) : list A := take (b - a) (drop a l).

(** [s.split(sep, 1)] for a one-character separator. *)
Fixpoint split_once_from (sep : N) (before s : str) : list str :=
  match s with
  | [] => [before]
  | c :: s' =>
      if bool_decide (c = sep) then [before; s']
      else split_once_from sep (before ++ [c]) s'
  end.

Definition split_once (sep : N) (s : str) : list str := split_once_from sep [] s.

(** [l[:n]]: a negative bound counts from the end. *)
Definition slice_to {A} (n : Z) (l : list A) : list A :=
  if (n <? 0)%Z then take (Z.to_nat (Z.max (Z.of_nat (length l) + n) 0)) l
  else take (Z.to_nat n) l.

(** [sep.join(parts)] *)
Fixpoint join (sep : str) (parts : list str) : str :=
  match parts with
  | [] => []
  | [p] => p
  | p :: ps => p ++ sep ++ join sep ps
  end.

(** ** The [int] constructor on a string

    [int(s)] skips white space at both ends, reads an optional sign and
    then decimal digits of any script, where single underscores may
    separate digits.  The separators U+001C..U+001F count as white space
    for [strip] but not for [int].  [None] stands for [ValueError]. *)
Definition int_space (c : N) : bool := isspace c && negb (in_range c (28, 31)%N).

Fixpoint int_digits (after_digit : bool) (s : str) : option (list N) :=
  match s with
  | [] => if after_digit then Some [] else None
  | c :: s' =>
      if bool_decide (c = 95%N) then
        if after_digit then int_digits false s' else None
      else
        d ← decimal_value c; ds ← int_digits true s'; Some (d :: ds)
  end.

Definition digits_value (ds : list N) : Z :=
  foldl (λ acc d, 10 * acc + Z.of_N d)%Z 0%Z ds.

(** Conversions of more than [max_str_digits] digits are refused
    ([sys.int_max_str_digits], 4300 unless configured; 0 switches the
    limit off, and it never applies up to 640 digits). *)
Definition too_many_digits (max_str_digits : N) (ds : list N) : bool :=
  let n := N.of_nat (length ds) in
  ((640 <? n) && (0 <? max_str_digits) && (max_str_digits <? n))%N.

Definition int (max_str_digits : N) (s : str) : option Z :=
  let s := rstrip_with int_space (lstrip_with int_space s) in
  let '(negative, body) :=
    match s with
    | c :: s' =>
        if bool_decide (c = 43%N) then (false, s')
        else if bool_decide (c = 45%N) then (true, s')
        else (false, s)
    | [] => (false, s)
    end in
  ds ← int_digits false body;
  if too_many_digits max_str_digits ds then None
  else Some (if negative then - digits_value ds else digits_value ds)%Z.

End Py.

(** * Questions and the question table *)
Module Question.
Record t := mk {
  level : str;
  subject : str;
  text : str;
  option1 : str;
  option2 : str;
  option3 : str;
  option4 : str;
  correct : Z;
  explanation : str }.
End Question.

(** The rows of table [questions] in insertion order.  No query of the
    program reads the [id] column, so rows carry the nine data columns. *)
Abbreviation store := (list Question.t).

(** The integers the column [correct INTEGER] can hold: signed 64-bit. *)
Definition sqlite_integer (z : Z) : bool :=
  ((- 2 ^ 63 <=? z) && (z <? 2 ^ 63))%Z.

(** [add_question]: one [INSERT], committed at once.  Binding an integer
    outside signed 64 bits raises [OverflowError], and nothing is
    inserted. *)
Definition add_question (q : Question.t) (db : store) : result store :=
  if sqlite_integer (Question.correct q) then Ok (db ++ [q])
  else Raise OverflowError.

(** * Extraction of questions from document text: [parse_pdf] *)

(** One finished block, [(current_q, options, correct, explanation)]. *)
Abbreviation entry := (str * list str * Z * str)%type.

(** The local variables of [parse_pdf] that the loop over the lines
    updates.  [current_q = None] is Python's [None]; [correct = None]
    means that the name [correct] is not bound yet. *)
Record locals := Locals {
  current_q : option str;
  data : list entry;
  options : list str;
  correct : option Z;
  explanation : str }.

Definition initial : locals :=
  {| current_q := None; data := []; options := []; correct := None;
     explanation := [] |}.

Definition set_current_q (q : option str) (st : locals) : locals :=
  {| current_q := q; data := data st; options := options st;
     correct := correct st; explanation := explanation st |}.
Definition set_options (o : list str) (st : locals) : locals :=
  {| current_q := current_q st; data := data st; options := o;
     correct := correct st; explanation := explanation st |}.
Definition set_correct (c : Z) (st : locals) : locals :=
  {| current_q := current_q st; data := data st; options := options st;
     correct := Some c; explanation := explanation st |}.
Definition set_explanation (e : str) (st : locals) : locals :=
  {| current_q := current_q st; data := data st; options := options st;
     correct := correct st; explanation := e |}.

(** Reading the local [correct]. *)
Definition read_correct (st : locals) : result Z :=
  match correct st with
  | Some c => Ok c
  | None => Raise UnboundLocalError
  end.

(** [if current_q: if len(options) == 4: data.append(...)], which is also
    the test [current_q and len(options) == 4] after the loop; a string is
    true when it is not empty.  Returns the new [data]. *)
Definition append_current (st : locals) : result (list entry) :=
  match current_q st with
  | Some ((_ :: _) as q) =>
      if bool_decide (length (options st) = 4) then
        c ← read_correct st;
        Ok (data st ++ [(q, options st, c, explanation st)])
      else Ok (data st)
  | _ => Ok (data st)
  end.

(** [line[0].isdigit() and line[1:3] == ". "] *)
Definition starts_question (line : str) : result bool :=
  c ← index line 0;
  Ok (Py.isdigit c && bool_decide (Py.slice 1 3 line = Py.lit ". ")).

Definition starts_option (line : str) : bool :=
  Py.startswith (Py.lit "A)") line || Py.startswith (Py.lit "B)") line
  || Py.startswith (Py.lit "C)") line || Py.startswith (Py.lit "D)") line.

(** [{"A": 1, "B": 2, "C": 3, "D": 4}] *)
Definition answer_table : gmap str Z :=
  {[ Py.lit "A" := 1%Z; Py.lit "B" := 2%Z; Py.lit "C" := 3%Z;
     Py.lit "D" := 4%Z ]}.

Definition colon : N := 58.

(** The body of the loop over the lines, for a line that is already
    stripped and not empty. *)
Definition handle_line (st : locals) (line : str) : result locals :=
  q ← starts_question line;
  if (q : bool) then
    data' ← append_current st;
    Ok {| current_q := Some (drop 3 line); data := data'; options := [];
          correct := Some 0%Z; explanation := [] |}
  else if starts_option line then
    Ok (set_options (options st ++ [Py.strip (drop 3 line)]) st)
  else if Py.startswith (Py.lit "Answer:") line then
    after ← index (Py.split_once colon line) 1;
    let letter := Py.upper (Py.strip after) in
    Ok (set_correct (default 0%Z (answer_table !! letter)) st)
  else if Py.startswith (Py.lit "Explanation:") line then
    after ← index (Py.split_once colon line) 1;
    Ok (set_explanation (Py.strip after) st)
  else
    match current_q st with
    | Some ((_ :: _) as q) =>
        Ok (set_current_q (Some (q ++ Py.lit " " ++ line)) st)
    | _ => Ok st
    end.

(** [line = line.strip()], [if not line: continue], then the rest of the
    loop body. *)
Definition parse_line (st : locals) (line : str) : result locals :=
  let line := Py.strip line in
  if bool_decide (line = []) then Ok st else handle_line st line.

Fixpoint parse_lines (st : locals) (lines : list str) : result locals :=
  match lines with
  | [] => Ok st
  | line :: lines' => st' ← parse_line st line; parse_lines st' lines'
  end.

(** Lines 121-150: from the text of the document to [data]. *)
Definition parse_text (doc : str) : result (list entry) :=
  st ← parse_lines initial (Py.splitlines doc);
  append_current st.

(** [Question(level, subject, qtext, opts[0], ..., opts[3], corr, expl)] *)
Definition make_question (level subject : str) (e : entry) : result Question.t :=
  let '(qtext, opts, corr, expl) := e in
  o0 ← index opts 0; o1 ← index opts 1; o2 ← index opts 2; o3 ← index opts 3;
  Ok (Question.mk level subject qtext o0 o1 o2 o3 corr expl).

(** The loop that stores the questions; a question stored before an
    exception stays stored. *)
Fixpoint add_entries (level subject : str) (es : list entry) (db : store)
  : store * option exn :=
  match es with
  | [] => (db, None)
  | e :: es' =>
      match make_question level subject e with
      | Ok q =>
          match add_question q db with
          | Ok db' => add_entries level subject es' db'
          | Raise x => (db, Some x)
          end
      | Raise x => (db, Some x)
      end
  end.

(** The text of the document: the texts that [extract_text] gives for
    the pages, with [None] (a page without text) counted as empty, joined
    by line feeds. *)
Definition document_text (pages : list (option str)) : str :=
  Py.join [Py.LF] (default [] <$> pages).

(** [parse_pdf].  The result is the table afterwards and the exception
    that ended the call, if any. *)
Definition parse_pdf (pages : list (option str)) (level subject : str)
    (db : store) : store * option exn :=
  match parse_text (document_text pages) with
  | Ok data => add_entries level subject data db
  | Raise x => (db, Some x)
  end.

(** [parse] of the specification: the records stored for one text. *)
Definition parse (doc level subject : str) : store * option exn :=
  parse_pdf [Some doc] level subject [].

(** * Sampling questions: [get_questions] *)
Section Sampling.

(** [random.shuffle] calls [randbelow(i + 1)] once for each index [i],
    so a source of randomness is the draw it gives for each bound. *)
Variable randbelow : nat → nat.

(** [x[i], x[j] = x[j], x[i]] *)
Definition swap {A} (i j : nat) (x : list A) : result (list A) :=
  xj ← index x j;
  xi ← index x i;
  Ok (<[j := xi]> (<[i := xj]> x)).

(** [for i in reversed(range(1, len(x))): j = randbelow(i + 1); ...],
    from index [i] downwards. *)
Fixpoint shuffle_from {A} (i : nat) (x : list A) : result (list A) :=
  match i with
  | 0 => Ok x
  | S i' => x' ← swap i (randbelow (i + 1)) x; shuffle_from i' x'
  end.

Definition shuffle {A} (x : list A) : result (list A) :=
  shuffle_from (length x - 1) x.

(** The rows of the two [SELECT] statements: [WHERE subject=?] when
    [subject] is true, that is neither [None] nor empty. *)
Definition select_rows (subject : option str) (db : store) : list Question.t :=
  match subject with
  | Some ((_ :: _) as s) => filter (λ q, Question.subject q = s) db
  | _ => db
  end.

Definition get_questions (subject : option str) (num : Z) (db : store)
  : result (list Question.t) :=
  rows ← shuffle (select_rows subject db);
  Ok (Py.slice_to num rows).

(** * The quiz: [evaluate] *)

(** What is printed. [Prompt] stands for the question, its four
    numbered options and the prompt of [input]. *)
Inductive output :=
  | NoQuestions
  | Prompt (q : Question.t)
  | Correcto
  | Incorrecto (explanation : str)
  | Resultado (score : Z) (total : nat).

Variable max_str_digits : N.

(** [try: ans = int(ans) except ValueError: ans = 0] *)
Definition read_answer (ans : str) : Z :=
  default 0%Z (Py.int max_str_digits ans).

(** The comparison with the stored answer: the new score and the
    message. *)
Definition grade (q : Question.t) (ans : str) (score : Z) : Z * output :=
  if bool_decide (read_answer ans = Question.correct q)
  then ((score + 1)%Z, Correcto)
  else (score, Incorrecto (Question.explanation q)).

(** The loop over the questions; [stdin] holds the lines still to be
    read, and [input] raises [EOFError] when there is none. *)
Fixpoint quiz (questions : list Question.t) (stdin : list str) (score : Z)
  : list output * result Z :=
  match questions with
  | [] => ([], Ok score)
  | q :: questions' =>
      match stdin with
      | [] => ([Prompt q], Raise EOFError)
      | ans :: stdin' =>
          let '(score', msg) := grade q ans score in
          let '(out, r) := quiz questions' stdin' score' in
          (Prompt q :: msg :: out, r)
      end
  end.

Definition evaluate (subject : option str) (num : Z) (db : store)
    (stdin : list str) : list output * option exn :=
  match get_questions subject num db with
  | Raise x => ([], Some x)
  | Ok [] => ([NoQuestions], None)
  | Ok questions =>
      match quiz questions stdin 0 with
      | (out, Ok score) => (out ++ [Resultado score (length questions)], None)
      | (out, Raise x) => (out, Some x)
      end
  end.

End Sampling.

(** * The line convention and the question blocks of the specification *)

Inductive line_kind :=
  | NewQuestion | OptionLine | AnswerLine | ExplanationLine | Continuation.

#[global] Instance line_kind_eq_dec : EqDecision line_kind.
Proof. solve_decision. Defined.

Definition is_question_line (line : str) : bool :=
  match starts_question line with Ok b => b | Raise _ => false end.

(** The kind of a stripped line, in the order the loop body tests it. *)
Definition classify (line : str) : line_kind :=
  if is_question_line line then NewQuestion
  else if starts_option line then OptionLine
  else if Py.startswith (Py.lit "Answer:") line then AnswerLine
  else if Py.startswith (Py.lit "Explanation:") line then ExplanationLine
  else Continuation.

(** The marker of the specification: one ASCII digit, a period, a space. *)
Definition ascii_question_marker (line : str) : Prop :=
  ∃ d rest, line = d :: 46%N :: 32%N :: rest ∧ (48 ≤ d ≤ 57)%N.

(** The table A→1, B→2, C→3, D→4, anything else 0. *)
Definition letter_value (token : str) : Z :=
  if bool_decide (token = Py.lit "A") then 1
  else if bool_decide (token = Py.lit "B") then 2
  else if bool_decide (token = Py.lit "C") then 3
  else if bool_decide (token = Py.lit "D") then 4
  else 0.

(** The lines of a document that are not blank, stripped. *)
Definition stripped_lines (raw : list str) : list str :=
  filter (λ l, l ≠ []) (Py.strip <$> raw).

Definition document_lines (doc : str) : list str :=
  stripped_lines (Py.splitlines doc).

(** [split lines = (pre, bs)]: [pre] are the lines before the first
    new-question line, and each block in [bs] is a new-question line with
    the lines that follow it up to the next new-question line or the end
    of the input. *)
Fixpoint split_blocks (lines : list str) : list str * list (str * list str) :=
  match lines with
  | [] => ([], [])
  | l :: ls =>
      let '(pre, bs) := split_blocks ls in
      if is_question_line l then ([], (l, pre) :: bs) else (l :: pre, bs)
  end.

Definition blocks (lines : list str) : list (str * list str) :=
  (split_blocks lines).2.

Definition lines_of_kind (k : line_kind) (body : list str) : list str :=
  filter (λ l, classify l = k) body.

(** The fields a block determines. *)
Definition continuation_text (body : list str) : str :=
  mjoin ((λ l, Py.lit " " ++ l) <$> lines_of_kind Continuation body).

Definition block_text (b : str * list str) : str :=
  drop 3 b.1 ++ continuation_text b.2.

Definition block_options (body : list str) : list str :=
  (λ l, Py.strip (drop 3 l)) <$> lines_of_kind OptionLine body.

Definition answer_value (line : str) : Z :=
  letter_value (Py.upper (Py.strip (drop 7 line))).

Definition block_correct (body : list str) : option Z :=
  answer_value <$> last (lines_of_kind AnswerLine body).

Definition block_explanation (body : list str) : option str :=
  (λ l, Py.strip (drop 12 l)) <$> last (lines_of_kind ExplanationLine body).


(** A document given by its lines, each ended by a line feed. *)
Definition lines_text (lines : list string) : str :=
  mjoin ((λ l, Py.lit l ++ [Py.LF]) <$> lines).

(** * Definitions for the proofs *)


(** The loop over lines that are already stripped and not blank. *)
Fixpoint handle_lines (st : locals) (lines : list str) : result locals :=
  match lines with
  | [] => Ok st
  | line :: lines' => st' ← handle_line st line; handle_lines st' lines'
  end.

(** A line as the loop body sees it after [strip]: not empty, and not
    ending in white space. *)
Definition stripped (line : str) : Prop :=
  line ≠ [] ∧ ∀ c, last line = Some c → Py.isspace c = false.

(** The state after the lines [body] of the open block, none of which
    starts a question. *)
Definition absorb (st : locals) (body : list str) : locals :=
  {| current_q := match current_q st with
                  | Some ((_ :: _) as q) => Some (q ++ continuation_text body)
                  | o => o
                  end;
     data := data st;
     options := options st ++ block_options body;
     correct := match block_correct body with
                | Some c => Some c
                | None => correct st
                end;
     explanation := default (explanation st) (block_explanation body) |}.

(** The entry of [data] a block gives. *)
Definition block_entry (b : str * list str) : list entry :=
  if bool_decide (length (block_options b.2) = 4) then
    [(block_text b, block_options b.2, default 0%Z (block_correct b.2),
      default [] (block_explanation b.2))]
  else [].

(** The states the loop reaches: a question that is open has text, and
    [correct] is bound once a question is open. *)
Record wf (st : locals) : Prop := {
  wf_text : current_q st ≠ Some [];
  wf_correct : is_Some (current_q st) → is_Some (correct st) }.



(** A record passes the subject filter of [get_questions]: the filter
    compares subjects only when [subject] is neither [None] nor empty. *)
Definition matches_subject (subject : option str) (q : Question.t) : Prop :=
  match subject with
  | Some ((_ :: _) as s) => Question.subject q = s
  | _ => True
  end.


(** The question of the example document, with a given answer and
    explanation. *)
Definition sample_question (correct : Z) (explanation : str) : Question.t :=
  Question.mk (Py.lit "easy") (Py.lit "math") (Py.lit "Q?") (Py.lit "a")
    (Py.lit "b") (Py.lit "c") (Py.lit "d") correct explanation.

(** A line that begins with ARABIC-INDIC DIGIT THREE (U+0663), followed
    by a period, a space and [Q?]. *)
Definition arabic_question_line : str := [1635; 46; 32; 81; 63]%N.

(** A table with two subjects. *)
Definition sample_store : store :=
  [sample_question 1 (Py.lit "one");
   Question.mk (Py.lit "easy") (Py.lit "art") (Py.lit "R?") (Py.lit "a")
     (Py.lit "b") (Py.lit "c") (Py.lit "d") 3 [];
   sample_question 2 (Py.lit "two")].

(** * Definitions for the further properties *)


(** The response [qa.2] to the question [qa.1] is right. *)
Definition is_right (max_str_digits : N) (qa : Question.t * str) : bool :=
  bool_decide (read_answer max_str_digits qa.2 = Question.correct qa.1).

(** What the quiz prints for questions paired with their responses. *)
Definition transcript (max_str_digits : N) (qas : list (Question.t * str))
  : list output :=
  qas ≫= λ qa,
    [Prompt qa.1;
     if is_right max_str_digits qa then Correcto
     else Incorrecto (Question.explanation qa.1)].

Definition right_answers (max_str_digits : N) (qas : list (Question.t * str))
  : nat :=
  length (filter (λ qa, is_right max_str_digits qa = true) qas).


(** * Import from a spreadsheet: [import_excel] *)

(** The exceptions of [import_excel]: the [ValueError] for a missing
    column, the [KeyError] of [row[col]], the exception of [int] on a
    cell that is no integer, and the [OverflowError] of the [INSERT]. *)
Inductive excel_exn :=
  | MissingColumn (col : str)
  | KeyError (col : str)
  | NotAnInt
  | IntegerOverflow.

#[global] Instance excel_bind : MBind (sum excel_exn) := λ A B f m,
  match m with inr a => f a | inl e => inl e end.

(** [required_cols] *)
Definition required_cols : list str :=
  Py.lit <$> ["level"; "subject"; "text"; "option1"; "option2"; "option3";
              "option4"; "correct"; "explanation"]%string.

(** [for col in required_cols: if col not in df.columns: raise ...]: the
    column the exception names, if any. *)
Fixpoint check_columns (columns : list str) (required : list str) : option str :=
  match required with
  | [] => None
  | col :: required' =>
      if bool_decide (col ∈ columns) then check_columns columns required'
      else Some col
  end.

Section Excel.
(** The values of the cells of the data frame that [read_excel] returns,
    with what [str] and [int] give for them; [cell_int] is [None] where
    [int] raises. *)
Variable cell : Type.
Variable cell_str : cell → str.
Variable cell_int : cell → option Z.

(** A data frame: its column labels and its rows, each row mapping
    labels to cells. *)
Record dataframe := DataFrame {
  df_columns : list str;
  df_rows : list (gmap str cell) }.

(** [row[col]] *)
Definition row_get (row : gmap str cell) (col : string) : excel_exn + cell :=
  match row !! Py.lit col with
  | Some c => inr c
  | None => inl (KeyError (Py.lit col))
  end.

(** [Question(level=str(row["level"]), ..., correct=int(row["correct"]),
    explanation=str(row["explanation"]))] *)
Definition row_question (row : gmap str cell) : excel_exn + Question.t :=
  level ← row_get row "level";
  subject ← row_get row "subject";
  text ← row_get row "text";
  option1 ← row_get row "option1";
  option2 ← row_get row "option2";
  option3 ← row_get row "option3";
  option4 ← row_get row "option4";
  correct ← row_get row "correct";
  c ← match cell_int correct with Some c => inr c | None => inl NotAnInt end;
  explanation ← row_get row "explanation";
  inr (Question.mk (cell_str level) (cell_str subject) (cell_str text)
         (cell_str option1) (cell_str option2) (cell_str option3)
         (cell_str option4) c (cell_str explanation)).

(** [for _, row in df.iterrows(): ... add_question(q, db_path)]; a row
    stored before an exception stays stored. *)
Fixpoint import_rows (rows : list (gmap str cell)) (db : store)
  : store * option excel_exn :=
  match rows with
  | [] => (db, None)
  | row :: rows' =>
      match row_question row with
      | inr q =>
          match add_question q db with
          | Ok db' => import_rows rows' db'
          | Raise _ => (db, Some IntegerOverflow)
          end
      | inl e => (db, Some e)
      end
  end.

(** [import_excel] on the data frame read from the file. *)
Definition import_excel (df : dataframe) (db : store) : store * option excel_exn :=
  match check_columns (df_columns df) required_cols with
  | Some col => (db, Some (MissingColumn col))
  | None => import_rows (df_rows df) db
  end.

(** The record of a row: each field is the conversion of the cell of
    its column. *)
Definition row_record (row : gmap str cell) (q : Question.t) : Prop :=
  cell_str <$> row !! Py.lit "level" = Some (Question.level q)
  ∧ cell_str <$> row !! Py.lit "subject" = Some (Question.subject q)
  ∧ cell_str <$> row !! Py.lit "text" = Some (Question.text q)
  ∧ cell_str <$> row !! Py.lit "option1" = Some (Question.option1 q)
  ∧ cell_str <$> row !! Py.lit "option2" = Some (Question.option2 q)
  ∧ cell_str <$> row !! Py.lit "option3" = Some (Question.option3 q)
  ∧ cell_str <$> row !! Py.lit "option4" = Some (Question.option4 q)
  ∧ row !! Py.lit "correct" ≫= cell_int = Some (Question.correct q)
  ∧ cell_str <$> row !! Py.lit "explanation" = Some (Question.explanation q).

(** A row has a cell for every required column. *)
Definition complete_row (row : gmap str cell) : Prop :=
  Forall (λ col, is_Some (row !! col)) required_cols.

(** Moreover its [correct] cell is an integer, and one that the column
    can hold. *)
Definition importable_row (row : gmap str cell) : Prop :=
  complete_row row
  ∧ ∃ z, row !! Py.lit "correct" ≫= cell_int = Some z
         ∧ sqlite_integer z = true.

End Excel.

Arguments DataFrame {cell}.
Arguments df_columns {cell}.
Arguments df_rows {cell}.
Arguments row_get {cell}.
Arguments row_question {cell}.
Arguments import_rows {cell}.
Arguments import_excel {cell}.
Arguments row_record {cell}.
Arguments complete_row {cell}.
Arguments importable_row {cell}.

(** A row of text cells, and frames of such rows; [str] of a text cell is
    the text, and [int] of it is [int] of the text. *)
Definition text_row (subject correct : string) : gmap str str :=
  list_to_map
    [(Py.lit "level", Py.lit "easy"); (Py.lit "subject", Py.lit subject);
     (Py.lit "text", Py.lit "Q?"); (Py.lit "option1", Py.lit "a");
     (Py.lit "option2", Py.lit "b"); (Py.lit "option3", Py.lit "c");
     (Py.lit "option4", Py.lit "d"); (Py.lit "correct", Py.lit correct);
     (Py.lit "explanation", Py.lit "e")].

Definition text_frame (rows : list (gmap str str)) : dataframe str :=
  DataFrame required_cols rows.

(** * Facts about the string functions *)

Section StripFacts.
Variable p : N → bool.

Lemma rstrip_with_last s c :
  last (Py.rstrip_with p s) = Some c → p c = false.
Proof.
  induction s as [|a s IH]; simpl; [done|].
  destruct (Py.rstrip_with p s) as [|b t] eqn:E.
  - destruct (p a) eqn:Ea; simpl; [done|]. by intros [= <-].
  - rewrite last_cons. destruct (last (b :: t)) eqn:El; [exact IH|].
    by apply last_None in El.
Qed.

Lemma lstrip_with_length s : length (Py.lstrip_with p s) ≤ length s.
Proof. induction s as [|a s IH]; simpl; [done|]. destruct (p a); simpl; lia. Qed.

Lemma rstrip_with_length s : length (Py.rstrip_with p s) ≤ length s.
Proof.
  induction s as [|a s IH]; simpl; [done|].
  destruct (Py.rstrip_with p s); [destruct (p a)|]; simpl in *; lia.
Qed.

Lemma rstrip_with_id s :
  (∀ c, last s = Some c → p c = false) → Py.rstrip_with p s = s.
Proof.
  induction s as [|a s IH]; [done|]. intros H. simpl.
  destruct s as [|b s].
  - simpl. by rewrite (H a eq_refl).
  - rewrite IH; [done|]. intros c Hc. apply H. by rewrite last_cons, Hc.
Qed.

End StripFacts.

Lemma strip_last s c : last (Py.strip s) = Some c → Py.isspace c = false.
Proof. apply rstrip_with_last. Qed.

Lemma strip_length s : length (Py.strip s) ≤ length s.
Proof.
  unfold Py.strip. etrans; [apply rstrip_with_length|apply lstrip_with_length].
Qed.

Lemma split_once_from_colon sep before pre rest :
  sep ∉ pre →
  Py.split_once_from sep before (pre ++ sep :: rest) = [before ++ pre; rest].
Proof.
  revert before. induction pre as [|c pre IH]; intros before Hn; simpl.
  - rewrite bool_decide_eq_true_2 by done. by rewrite app_nil_r.
  - rewrite bool_decide_eq_false_2 by set_solver.
    rewrite IH by set_solver. by rewrite <-app_assoc.
Qed.

Lemma startswith_app p s :
  Py.startswith p s = true ↔ ∃ rest, s = p ++ rest.
Proof.
  unfold Py.startswith. rewrite bool_decide_eq_true. split.
  - intros H. exists (drop (length p) s). by rewrite <-H at 1; rewrite take_drop.
  - intros [rest ->]. by rewrite take_app_length.
Qed.


Lemma split_answer line :
  Py.startswith (Py.lit "Answer:") line = true →
  Py.split_once colon line = [Py.lit "Answer"; drop 7 line].
Proof. by intros [rest ->]%startswith_app. Qed.

Lemma split_explanation line :
  Py.startswith (Py.lit "Explanation:") line = true →
  Py.split_once colon line = [Py.lit "Explanation"; drop 12 line].
Proof. by intros [rest ->]%startswith_app. Qed.

Lemma answer_table_lookup token :
  default 0%Z (answer_table !! token) = letter_value token.
Proof.
  unfold answer_table, letter_value.
  repeat (rewrite lookup_insert; case_decide;
          [subst; by rewrite ?bool_decide_eq_true_2, ?bool_decide_eq_false_2 by done|
           rewrite (bool_decide_eq_false_2 (token = _)) by done]).
  rewrite lookup_singleton. case_decide; [by subst|].
  by rewrite bool_decide_eq_false_2 by done.
Qed.

(** ** Digits *)
Lemma below_128 (P : N → Prop) :
  Forall P (N.of_nat <$> seq 0 128) → ∀ c, (c < 128)%N → P c.
Proof.
  intros H c Hc. rewrite Forall_forall in H. apply H.
  apply list_elem_of_fmap. exists (N.to_nat c). split; [lia|].
  apply elem_of_seq. lia.
Qed.

Lemma isdigit_ascii c : (c < 128)%N → Py.isdigit c = Py.is_ascii_digit c.
Proof.
  revert c. apply below_128.
  apply (bool_decide_unpack _). by vm_compute.
Qed.








(** The string functions on small inputs. *)
Example splitlines_example :
  Py.splitlines (Py.lit "a" ++ [Py.CR; Py.LF] ++ Py.lit "b" ++ [Py.LF; Py.LF]
                 ++ Py.lit "c")
  = [Py.lit "a"; Py.lit "b"; []; Py.lit "c"].
Proof. reflexivity. Qed.

Example strip_example : Py.strip (Py.lit "  A) x  ") = Py.lit "A) x".
Proof. reflexivity. Qed.

Example isdigit_example :
  Py.isdigit 51 = true ∧ Py.isdigit 1635 = true ∧ Py.isdigit 178 = true
  ∧ Py.isdigit 65 = false ∧ Py.decimal_value 178 = None.
Proof. by vm_compute. Qed.

Example upper_example :
  Py.upper (Py.lit "b") = Py.lit "B" ∧ Py.upper [223%N] = Py.lit "SS".
Proof. by vm_compute. Qed.

Example int_example :
  Py.int 4300 (Py.lit " +1_0 ") = Some 10%Z
  ∧ Py.int 4300 (Py.lit "-7") = Some (-7)%Z
  ∧ Py.int 4300 [1633; 1634]%N = Some 12%Z
  ∧ Py.int 4300 (Py.lit "1__0") = None
  ∧ Py.int 4300 (Py.lit "abc") = None
  ∧ Py.int 4300 [] = None.
Proof. by vm_compute. Qed.

(** * The loop of [parse_pdf] *)

Lemma stripped_strip raw : Py.strip raw ≠ [] → stripped (Py.strip raw).
Proof. intros H. split; [done|]. apply strip_last. Qed.

Lemma Forall_stripped_lines raws : Forall stripped (stripped_lines raws).
Proof.
  unfold stripped_lines. induction raws as [|r raws IH]; simpl; [constructor|].
  rewrite filter_cons. case_decide; [|done].
  constructor; [by apply stripped_strip|done].
Qed.

Lemma parse_lines_stripped raws st :
  parse_lines st raws = handle_lines st (stripped_lines raws).
Proof.
  revert st. unfold stripped_lines.
  induction raws as [|r raws IH]; intros st; simpl; [done|].
  rewrite filter_cons. unfold parse_line. case_bool_decide as E.
  - rewrite decide_False by (by intros ?). simpl. apply IH.
  - rewrite decide_True by done. simpl.
    destruct (handle_line st (Py.strip r)); simpl; [apply IH|done].
Qed.

Lemma starts_question_nonempty line :
  line ≠ [] → starts_question line = Ok (is_question_line line).
Proof.
  destruct line as [|c line]; [done|]. intros _.
  unfold is_question_line, starts_question. done.
Qed.

Lemma starts_question_marker line :
  starts_question line = Ok true ↔
  ∃ d rest, line = d :: 46%N :: 32%N :: rest ∧ Py.isdigit d = true.
Proof.
  split.
  - destruct line as [|d line]; [done|].
    unfold starts_question. simpl. intros [= H].
    apply andb_prop in H as [Hd H%bool_decide_eq_true].
    destruct line as [|a [|b rest]]; try done.
    injection H as -> ->. eauto.
  - intros (d & rest & -> & Hd). unfold starts_question. simpl. by rewrite Hd.
Qed.

Lemma is_question_line_marker line :
  is_question_line line = true ↔
  ∃ d rest, line = d :: 46%N :: 32%N :: rest ∧ Py.isdigit d = true.
Proof.
  rewrite <-starts_question_marker. unfold is_question_line.
  destruct (starts_question line) as [[]|]; split; congruence.
Qed.

(** The text of a question that a stripped line opens is not empty. *)
Lemma question_text_nonempty line :
  stripped line → is_question_line line = true → drop 3 line ≠ [].
Proof.
  intros [_ Hl] (d & rest & -> & _)%is_question_line_marker.
  change (rest ≠ []). intros ->. by specialize (Hl 32%N eq_refl).
Qed.

Lemma lines_of_kind_cons k l body :
  lines_of_kind k (l :: body) =
  if decide (classify l = k) then l :: lines_of_kind k body
  else lines_of_kind k body.
Proof. unfold lines_of_kind. by rewrite filter_cons. Qed.

Lemma absorb_nil st : absorb st [] = st.
Proof.
  destruct st as [[[|c q]|] d o c' e]; unfold absorb; simpl;
    by rewrite ?app_nil_r.
Qed.

(** The value an answer line stores, in the words of the specification. *)
Lemma answer_line_value line :
  Py.startswith (Py.lit "Answer:") line = true →
  (after ← index (Py.split_once colon line) 1;
   Ok (default 0%Z (answer_table !! Py.upper (Py.strip after))))
  = Ok (answer_value line).
Proof.
  intros H. rewrite (split_answer _ H). simpl.
  by rewrite answer_table_lookup.
Qed.

Ltac kind_of l :=
  unfold absorb, continuation_text, block_options, block_correct,
    block_explanation;
  rewrite !lines_of_kind_cons;
  match goal with H : classify l = _ |- _ => rewrite !H end;
  simpl.

(** A line that does not start a question is absorbed by the block that
    is open. *)
Lemma handle_body_line st l :
  l ≠ [] → is_question_line l = false →
  ∃ st1, handle_line st l = Ok st1 ∧ (wf st → wf st1) ∧
         ∀ body, absorb st1 body = absorb st (l :: body).
Proof.
  intros Hne Hq. unfold handle_line.
  rewrite (starts_question_nonempty _ Hne), Hq. simpl.
  assert (classify l = if starts_option l then OptionLine
                       else if Py.startswith (Py.lit "Answer:") l then AnswerLine
                       else if Py.startswith (Py.lit "Explanation:") l
                            then ExplanationLine else Continuation) as Hk
    by (unfold classify; by rewrite Hq).
  destruct (starts_option l).
  { eexists; split; [done|]. split.
    - intros [? ?]. by split.
    - intros body. kind_of l. by rewrite <-app_assoc. }
  destruct (Py.startswith (Py.lit "Answer:") l) eqn:Ha.
  { pose proof (answer_line_value _ Ha) as Hv.
    destruct (index (Py.split_once colon l) 1) as [after|] eqn:Hi; [|done].
    simpl in Hv |- *. injection Hv as Hv. rewrite Hv.
    eexists; split; [done|]. split.
    - intros [? ?]. split; [done|]. intros _. by eexists.
    - intros body. kind_of l. rewrite last_cons.
      by destruct (last (lines_of_kind AnswerLine body)). }
  destruct (Py.startswith (Py.lit "Explanation:") l) eqn:He.
  { rewrite (split_explanation _ He). simpl.
    eexists; split; [done|]. split.
    - intros [? ?]. by split.
    - intros body. kind_of l. rewrite last_cons.
      by destruct (last (lines_of_kind ExplanationLine body)). }
  destruct (current_q st) as [[|c q]|] eqn:Eq.
  - eexists; split; [done|]. split; [done|].
    intros body. kind_of l. by rewrite Eq.
  - eexists; split; [done|]. split.
    + intros [? Hc]. split; [done|]. simpl. intros _. apply Hc. by rewrite Eq.
    + intros body. kind_of l. rewrite Eq. simpl.
      by rewrite <-!app_assoc.
  - eexists; split; [done|]. split; [done|].
    intros body. kind_of l. by rewrite Eq.
Qed.

Lemma wf_initial : wf initial.
Proof. split; [done|]. by intros [? [=]]. Qed.

Lemma append_current_wf st : wf st → ∃ d, append_current st = Ok d.
Proof.
  intros [Hq Hc]. unfold append_current, read_correct.
  destruct (current_q st) as [[|c q]|]; eauto.
  destruct Hc as [v ->]; [by eexists|].
  case_bool_decide; simpl; eauto.
Qed.

(** Closing a block that a question line opened gives the entry of the
    block. *)
Lemma append_current_block d l body :
  drop 3 l ≠ [] →
  append_current
    (absorb {| current_q := Some (drop 3 l); data := d; options := [];
               correct := Some 0%Z; explanation := [] |} body)
  = Ok (d ++ block_entry (l, body)).
Proof.
  intros Hne. unfold append_current, absorb, block_entry, block_text. simpl.
  destruct (drop 3 l) as [|c q] eqn:E; [done|]. simpl.
  case_bool_decide; [|by rewrite app_nil_r].
  unfold read_correct. simpl.
  by destruct (block_correct body).
Qed.

Lemma split_blocks_cons l ls :
  split_blocks (l :: ls) =
  if is_question_line l
  then ([], (l, (split_blocks ls).1) :: (split_blocks ls).2)
  else (l :: (split_blocks ls).1, (split_blocks ls).2).
Proof. simpl. by destruct (split_blocks ls), (is_question_line l). Qed.

Example blocks_example :
  blocks (Py.lit <$> ["x"; "1. a"; "A) o"; "b"; "2. c"]%string)
  = [(Py.lit "1. a", [Py.lit "A) o"; Py.lit "b"]); (Py.lit "2. c", [])].
Proof. reflexivity. Qed.

(** The loop, followed by the test after it, gives the entries of the
    blocks, in the order of the document. *)
Lemma handle_lines_blocks lines st :
  Forall stripped lines → wf st →
  ∃ d, append_current (absorb st (split_blocks lines).1) = Ok d ∧
       (st' ← handle_lines st lines; append_current st')
       = Ok (d ++ (blocks lines ≫= block_entry)).
Proof.
  intros Hl. revert st.
  induction Hl as [|l ls [Hne Hlast] Hls IH]; intros st Hwf.
  - simpl. rewrite absorb_nil.
    destruct (append_current_wf _ Hwf) as [d Hd]. exists d.
    by rewrite Hd, app_nil_r.
  - unfold blocks in *. rewrite split_blocks_cons. cbn [handle_lines].
    destruct (is_question_line l) eqn:Hq.
    + simpl. rewrite absorb_nil.
      destruct (append_current_wf _ Hwf) as [d Hd]. exists d.
      split; [done|]. unfold handle_line.
      rewrite (starts_question_nonempty _ Hne), Hq, Hd. simpl.
      assert (drop 3 l ≠ []) as Hq3 by by apply question_text_nonempty.
      edestruct IH as (d1 & Hd1 & ->).
      { split; simpl; [congruence|]. by eexists. }
      rewrite append_current_block in Hd1 by done.
      injection Hd1 as <-. by rewrite <-app_assoc.
    + destruct (handle_body_line st l Hne Hq) as (st1 & -> & Hwf1 & Habs).
      simpl. destruct (IH st1 (Hwf1 Hwf)) as (d & Hd & ->).
      exists d. by rewrite <-Habs.
Qed.

Lemma parse_text_blocks doc :
  parse_text doc = Ok (blocks (document_lines doc) ≫= block_entry).
Proof.
  unfold parse_text, document_lines. rewrite parse_lines_stripped.
  destruct (handle_lines_blocks (stripped_lines (Py.splitlines doc)) initial)
    as (d & Hd & ->); [apply Forall_stripped_lines|apply wf_initial|].
  unfold append_current, absorb in Hd. simpl in Hd. by injection Hd as <-.
Qed.







Lemma handle_line_wf st l st1 :
  stripped l → wf st → handle_line st l = Ok st1 → wf st1.
Proof.
  intros [Hne Hl] Hwf. destruct (is_question_line l) eqn:Hq.
  - unfold handle_line. rewrite (starts_question_nonempty _ Hne), Hq. simpl.
    destruct (append_current st) as [d|]; [|done]. simpl. intros [= <-].
    split; simpl; [|by eexists].
    intros [= H]. by apply (question_text_nonempty l).
  - destruct (handle_body_line st l Hne Hq) as (st2 & -> & Hwf2 & _).
    intros [= <-]. auto.
Qed.

Lemma handle_lines_wf lines st st1 :
  Forall stripped lines → wf st → handle_lines st lines = Ok st1 → wf st1.
Proof.
  intros Hl. revert st. induction Hl as [|l ls Hs Hls IH]; intros st Hwf; simpl.
  - by intros [= <-].
  - destruct (handle_line st l) as [st2|] eqn:E; [|done]. simpl.
    apply IH. by apply (handle_line_wf st l).
Qed.

(** Every state the loop reaches from the start is well formed. *)
Lemma parse_lines_wf raws st :
  parse_lines initial raws = Ok st → wf st.
Proof.
  rewrite parse_lines_stripped.
  apply handle_lines_wf; [apply Forall_stripped_lines|apply wf_initial].
Qed.



(** * Shuffling and slicing *)



Lemma select_rows_spec subject db q :
  q ∈ select_rows subject db ↔ q ∈ db ∧ matches_subject subject q.
Proof.
  unfold select_rows, matches_subject.
  destruct subject as [[|c s]|]; rewrite ?list_elem_of_filter; tauto.
Qed.

Section SamplingFacts.
Variable randbelow : nat → nat.
Hypothesis randbelow_lt : ∀ n, 0 < n → randbelow n < n.



End SamplingFacts.

Example shuffle_example : shuffle (λ _, 0) [1; 2; 3] = Ok [2; 3; 1].
Proof. reflexivity. Qed.

Example get_questions_example :
  get_questions (λ _, 0) (Some (Py.lit "math")) 5 sample_store
  = Ok [sample_question 2 (Py.lit "two"); sample_question 1 (Py.lit "one")].
Proof. by vm_compute. Qed.

(** * The claims of the specification *)

(** C4. [parse] of the document with the lines [1. Q?], [A) a], [B) b],
    [C) c], [D) d], [Answer: B], [Explanation: e], with level [easy] and
    subject [math], stores exactly one record: text [Q?], options [a],
    [b], [c], [d], correct 2, explanation [e], level [easy] and subject
    [math]; no exception is raised. *)
Theorem parse_example :
  parse (lines_text ["1. Q?"; "A) a"; "B) b"; "C) c"; "D) d"; "Answer: B";
                     "Explanation: e"]%string)
        (Py.lit "easy") (Py.lit "math")
  = ([Question.mk (Py.lit "easy") (Py.lit "math") (Py.lit "Q?") (Py.lit "a")
        (Py.lit "b") (Py.lit "c") (Py.lit "d") 2 (Py.lit "e")], None).
Proof. by vm_compute. Qed.





(** C8. In every state the loop reaches, a line that is not blank and
    is not a new-question, option, answer or explanation line appends one
    space and its stripped content to the text of the open question, and
    changes nothing when no question is open. *)
Theorem continuation_line (raws : list str) (st : locals) (raw : str) :
  parse_lines initial raws = Ok st →
  Py.strip raw ≠ [] →
  classify (Py.strip raw) = Continuation →
  parse_line st raw
  = Ok match current_q st with
       | Some q => set_current_q (Some (q ++ Py.lit " " ++ Py.strip raw)) st
       | None => st
       end.
Proof.
  intros [Hq _]%parse_lines_wf Hne Hk.
  unfold parse_line. rewrite bool_decide_eq_false_2 by done.
  unfold classify in Hk. unfold handle_line.
  rewrite (starts_question_nonempty _ Hne).
  destruct (is_question_line (Py.strip raw)); [done|]. simpl.
  destruct (starts_option (Py.strip raw)); [done|].
  destruct (Py.startswith (Py.lit "Answer:") (Py.strip raw)); [done|].
  destruct (Py.startswith (Py.lit "Explanation:") (Py.strip raw)); [done|].
  by destruct (current_q st) as [[|c q]|].
Qed.

Lemma continuation_line_witness :
  parse_line
    {| current_q := Some (Py.lit "What is"); data := []; options := [];
       correct := Some 0%Z; explanation := [] |}
    (Py.lit " the answer? ")
  = Ok {| current_q := Some (Py.lit "What is the answer?"); data := [];
          options := []; correct := Some 0%Z; explanation := [] |}.
Proof.
  apply (continuation_line [Py.lit "1. What is"]); [reflexivity| |reflexivity].
  intros H. discriminate H.
Defined.

(** Continuation lines in a row are appended in the order of the
    document, each after one space. *)
Lemma continuation_lines st q conts :
  current_q st = Some q → q ≠ [] →
  Forall (λ l, l ≠ [] ∧ classify l = Continuation) conts →
  handle_lines st conts
  = Ok (set_current_q (Some (q ++ mjoin ((λ l, Py.lit " " ++ l) <$> conts))) st).
Proof.
  intros Hq Hne Hc. revert st q Hq Hne.
  induction Hc as [|l ls [Hl Hk] _ IH]; intros st q Hq Hne; simpl.
  - rewrite app_nil_r. destruct st. simpl in Hq. by subst.
  - unfold classify in Hk. unfold handle_line.
    rewrite (starts_question_nonempty _ Hl).
    destruct (is_question_line l); [done|]. simpl.
    destruct (starts_option l); [done|].
    destruct (Py.startswith (Py.lit "Answer:") l); [done|].
    destruct (Py.startswith (Py.lit "Explanation:") l); [done|].
    rewrite Hq. destruct q as [|c q]; [done|]. simpl.
    erewrite IH; [|done|done]. unfold set_current_q. simpl.
    by rewrite <-!app_assoc.
Qed.

(** C3 as stated fails: the line [arabic_question_line] begins with the
    digit U+0663, which is not an ASCII digit, and yet it starts a
    question, and the document it opens is stored as one record. *)
Lemma non_ascii_digit_starts_question :
  starts_question arabic_question_line = Ok true
  ∧ ¬ ascii_question_marker arabic_question_line
  ∧ parse (arabic_question_line ++ [Py.LF] ++ lines_text ["A) a"; "B) b"; "C) c"; "D) d"; "Answer: B"; "Explanation: e"]%string)
      (Py.lit "easy") (Py.lit "math")
    = ([sample_question 2 (Py.lit "e")], None).
Proof.
  split; [by vm_compute|]. split; [|by vm_compute].
  intros (d & rest & [= <- _] & Hd). lia.
Qed.

Lemma startswith_other_first p c s :
  head p ≠ None → head p ≠ Some c → Py.startswith p (c :: s) = false.
Proof.
  destruct p as [|a p]; [done|]. simpl. intros _ H.
  apply bool_decide_eq_false_2. simpl. intros [= -> _]. done.
Qed.

(** C3, amended. A line starts a new question exactly when its first
    character is a digit for [str.isdigit] and its second and third
    characters are a period and a space; among the ASCII characters the
    digits of [str.isdigit] are exactly 0-9, so every line with the ASCII
    marker is recognised; a line that begins with two ASCII digits, such
    as [10. ], is not recognised and is handled as a continuation line. *)
Theorem question_line_recognition (line : str) :
  (starts_question line = Ok true ↔
   ∃ d rest, line = d :: 46%N :: 32%N :: rest ∧ Py.isdigit d = true)
  ∧ (∀ d, (d < 128)%N → Py.isdigit d = true ↔ (48 ≤ d ≤ 57)%N)
  ∧ (ascii_question_marker line → starts_question line = Ok true)
  ∧ (∀ st d1 d2 rest,
       line = d1 :: d2 :: rest → (48 ≤ d1 ≤ 57)%N → (48 ≤ d2 ≤ 57)%N →
       starts_question line = Ok false
       ∧ classify line = Continuation
       ∧ handle_line st line
         = Ok match current_q st with
              | Some ((_ :: _) as q) =>
                  set_current_q (Some (q ++ Py.lit " " ++ line)) st
              | _ => st
              end).
Proof.
  assert (∀ d, (d < 128)%N → Py.isdigit d = true ↔ (48 ≤ d ≤ 57)%N) as Hascii.
  { intros d Hd. rewrite (isdigit_ascii _ Hd).
    unfold Py.is_ascii_digit, Py.in_range. simpl.
    rewrite andb_true_iff, !N.leb_le. done. }
  split; [apply starts_question_marker|]. split; [done|]. split.
  - intros (d & rest & -> & Hd). apply starts_question_marker.
    exists d, rest. split; [done|]. apply Hascii; lia.
  - intros st d1 d2 rest -> H1 H2.
    assert (starts_question (d1 :: d2 :: rest) = Ok false) as Hq.
    { unfold starts_question. simpl. f_equal. apply andb_false_intro2.
      apply bool_decide_eq_false_2. intros [= -> _]. lia. }
    assert (starts_option (d1 :: d2 :: rest) = false) as Ho.
    { unfold starts_option.
      rewrite !(startswith_other_first _ d1) by (vm_compute; intros E; inversion E; lia).
      done. }
    assert (Py.startswith (Py.lit "Answer:") (d1 :: d2 :: rest) = false) as Ha
      by (apply startswith_other_first; vm_compute; intros E; inversion E; lia).
    assert (Py.startswith (Py.lit "Explanation:") (d1 :: d2 :: rest) = false)
      as He by (apply startswith_other_first; vm_compute; intros E; inversion E; lia).
    split; [done|]. split.
    + unfold classify, is_question_line. by rewrite Hq, Ho, Ha, He.
    + unfold handle_line. rewrite Hq. simpl. rewrite Ho, Ha, He.
      by destruct (current_q st) as [[|c q]|].
Qed.

(** C2 fails on the code: the option line [A)x] appends the empty
    option, not [x], and [A)xy] appends [y]: the character right after
    the two-character marker is dropped, so a block whose option lines
    are [A)w], [B)x], [C)y], [D)z] is stored with four empty options. *)
Theorem option_without_space (st : locals) :
  handle_line st (Py.lit "A)x") = Ok (set_options (options st ++ [[]]) st)
  ∧ handle_line st (Py.lit "A)xy") = Ok (set_options (options st ++ [Py.lit "y"]) st)
  ∧ parse (lines_text ["1. Q?"; "A)w"; "B)x"; "C)y"; "D)z"; "Answer: B"]%string)
      (Py.lit "easy") (Py.lit "math")
    = ([Question.mk (Py.lit "easy") (Py.lit "math") (Py.lit "Q?") [] [] [] []
          2 []], None).
Proof. by vm_compute. Qed.

(** Where white space follows the marker, the option is the text after
    the marker without the white space around it. *)
Lemma option_after_space line c rest :
  line = c :: 41%N :: rest →
  (∀ s r, rest = s :: r → Py.isspace s = true) →
  Py.strip (drop 3 line) = Py.strip (drop 2 line).
Proof.
  intros -> H. destruct rest as [|s r]; [done|].
  unfold Py.strip. simpl. by rewrite (H s r eq_refl).
Qed.

(** Where another character follows the marker, the option stored is
    not the text after the marker. *)
Lemma option_without_space_differs line c s r :
  stripped line → line = c :: 41%N :: s :: r → Py.isspace s = false →
  Py.strip (drop 2 line) = s :: r
  ∧ Py.strip (drop 3 line) ≠ Py.strip (drop 2 line).
Proof.
  intros [_ Hl] -> Hs.
  assert (Py.strip (s :: r) = s :: r) as E.
  { unfold Py.strip. simpl. rewrite Hs. apply rstrip_with_id.
    intros c' Hc. apply Hl. by rewrite (last_cons c), (last_cons 41%N), Hc. }
  split; [done|]. change (Py.strip r ≠ Py.strip (s :: r)). rewrite E.
  intros H. pose proof (strip_length r) as Hr. rewrite H in Hr. simpl in Hr. lia.
Qed.

(** A question whose stored answer is 0 is scored as answered correctly
    exactly by the responses that [int] refuses or reads as 0. *)
Lemma grade_unanswerable max_str_digits q ans score :
  Question.correct q = 0%Z →
  grade max_str_digits q ans score
  = if bool_decide (Py.int max_str_digits ans = None
                    ∨ Py.int max_str_digits ans = Some 0%Z)
    then ((score + 1)%Z, Correcto)
    else (score, Incorrecto (Question.explanation q)).
Proof.
  intros Hc. unfold grade, read_answer. rewrite Hc.
  rewrite (bool_decide_ext _ (Py.int max_str_digits ans = None
                              ∨ Py.int max_str_digits ans = Some 0%Z));
    [done|].
  destruct (Py.int max_str_digits ans) as [n|]; simpl; split.
  - intros ->. by right.
  - by intros [|[=]].
  - by left.
  - done.
Qed.

(** C1 fails on the code: the document whose answer line is [Answer: Z]
    is stored with [correct = 0], and the quiz scores that question as
    answered correctly, adding 1 to the score, both for the malformed
    response [abc] (coerced to 0) and for the response [0]. *)
Theorem evaluate_scores_unanswerable (randbelow : nat → nat)
    (max_str_digits : N) :
  parse (lines_text ["1. Q?"; "A) a"; "B) b"; "C) c"; "D) d"; "Answer: Z"]%string)
    (Py.lit "easy") (Py.lit "math") = ([sample_question 0 []], None)
  ∧ grade max_str_digits (sample_question 0 []) (Py.lit "abc") 0
    = (1%Z, Correcto)
  ∧ evaluate randbelow max_str_digits None 5 [sample_question 0 []]
      [Py.lit "abc"]
    = ([Prompt (sample_question 0 []); Correcto; Resultado 1 1], None)
  ∧ evaluate randbelow max_str_digits None 5 [sample_question 0 []]
      [Py.lit "0"]
    = ([Prompt (sample_question 0 []); Correcto; Resultado 1 1], None).
Proof. by vm_compute. Qed.







(** C10. The empty subject behaves as no subject: the rows selected are
    all the stored rows, and [get_questions] and [evaluate] give what they
    give for [None]. *)
Theorem empty_subject_selects_all (randbelow : nat → nat) (max_str_digits : N)
    (num : Z) (db : store) (stdin : list str) :
  select_rows (Some []) db = db
  ∧ get_questions randbelow (Some []) num db
    = get_questions randbelow None num db
  ∧ evaluate randbelow max_str_digits (Some []) num db stdin
    = evaluate randbelow max_str_digits None num db stdin.
Proof. done. Qed.

(** * Further properties of the code *)

(** * More facts about stripping *)
Section StripMore.
Variable p : N → bool.

Lemma lstrip_with_id s :
  (∀ c, head s = Some c → p c = false) → Py.lstrip_with p s = s.
Proof. destruct s as [|a s]; [done|]. intros H. simpl. by rewrite (H a eq_refl). Qed.

Lemma lstrip_with_head s c :
  head (Py.lstrip_with p s) = Some c → p c = false.
Proof.
  induction s as [|a s IH]; simpl; [done|].
  destruct (p a) eqn:E; [done|]. simpl. by intros [= <-].
Qed.

Lemma rstrip_with_head s c :
  head (Py.rstrip_with p s) = Some c → head s = Some c.
Proof.
  destruct s as [|a s]; simpl; [done|].
  destruct (Py.rstrip_with p s); [destruct (p a)|]; done.
Qed.

Lemma lstrip_with_all s : Forall (λ c, p c = true) s → Py.lstrip_with p s = [].
Proof. induction 1 as [|a s Ha _ IH]; simpl; [done|]. by rewrite Ha. Qed.

Lemma rstrip_with_all s : Forall (λ c, p c = true) s → Py.rstrip_with p s = [].
Proof. induction 1 as [|a s Ha _ IH]; simpl; [done|]. by rewrite IH, Ha. Qed.

Lemma lstrip_with_app_l a s :
  Forall (λ c, p c = true) a → Py.lstrip_with p (a ++ s) = Py.lstrip_with p s.
Proof. induction 1 as [|c a Hc _ IH]; simpl; [done|]. by rewrite Hc. Qed.

Lemma rstrip_with_app_r s b :
  Forall (λ c, p c = true) b → Py.rstrip_with p (s ++ b) = Py.rstrip_with p s.
Proof.
  intros Hb. induction s as [|c s IH]; simpl.
  - by apply rstrip_with_all.
  - fold (Py.rstrip_with p (s ++ b)). fold (Py.rstrip_with p s). by rewrite IH.
Qed.

Lemma lstrip_with_app_r s b :
  Forall (λ c, p c = true) b →
  Py.rstrip_with p (Py.lstrip_with p (s ++ b)) = Py.rstrip_with p (Py.lstrip_with p s).
Proof.
  intros Hb. induction s as [|c s IH]; simpl.
  - by rewrite (lstrip_with_all b Hb).
  - destruct (p c); [done|]. by apply (rstrip_with_app_r (c :: s)).
Qed.

(** Stripping both ends twice is stripping once. *)
Lemma strip_with_idemp s :
  Py.rstrip_with p (Py.lstrip_with p (Py.rstrip_with p (Py.lstrip_with p s)))
  = Py.rstrip_with p (Py.lstrip_with p s).
Proof.
  rewrite (lstrip_with_id (Py.rstrip_with p _)).
  - apply rstrip_with_id. apply rstrip_with_last.
  - intros c Hc%rstrip_with_head. by apply lstrip_with_head in Hc.
Qed.

(** Characters to strip around a string do not change what is left. *)
Lemma strip_with_around a s b :
  Forall (λ c, p c = true) a → Forall (λ c, p c = true) b →
  Py.rstrip_with p (Py.lstrip_with p (a ++ s ++ b))
  = Py.rstrip_with p (Py.lstrip_with p s).
Proof. intros Ha Hb. by rewrite lstrip_with_app_l, lstrip_with_app_r. Qed.
End StripMore.

Lemma strip_idemp s : Py.strip (Py.strip s) = Py.strip s.
Proof. apply strip_with_idemp. Qed.

Lemma stripped_lines_idemp raws : stripped_lines (stripped_lines raws) = stripped_lines raws.
Proof.
  unfold stripped_lines. induction raws as [|r raws IH]; [done|].
  rewrite fmap_cons, filter_cons. case_decide as E; [|done].
  rewrite fmap_cons, filter_cons, strip_idemp, decide_True by done.
  by rewrite IH.
Qed.

Lemma stripped_lines_Forall (P : str → Prop) raws :
  Forall (λ r, P (Py.strip r)) raws → Forall P (stripped_lines raws).
Proof.
  rewrite !Forall_forall.
  intros H l [_ (r & -> & Hr)%list_elem_of_fmap]%list_elem_of_filter. auto.
Qed.

Lemma stripped_lines_app a b :
  stripped_lines (a ++ b) = stripped_lines a ++ stripped_lines b.
Proof. unfold stripped_lines. by rewrite fmap_app, filter_app. Qed.

(** * More on the loop of [parse_pdf] *)

Lemma parse_lines_blocks raws :
  (st ← parse_lines initial raws; append_current st)
  = Ok (blocks (stripped_lines raws) ≫= block_entry).
Proof.
  rewrite parse_lines_stripped.
  destruct (handle_lines_blocks (stripped_lines raws) initial)
    as (d & Hd & ->); [apply Forall_stripped_lines|apply wf_initial|].
  unfold append_current, absorb in Hd. simpl in Hd. by injection Hd as <-.
Qed.

Lemma split_blocks_app_no_question pre ls :
  Forall (λ l, is_question_line l = false) pre →
  split_blocks (pre ++ ls) = (pre ++ (split_blocks ls).1, (split_blocks ls).2).
Proof.
  induction 1 as [|l pre Hl _ IH]; simpl.
  - by destruct (split_blocks ls).
  - rewrite IH, Hl. done.
Qed.

Lemma blocks_no_question lines :
  Forall (λ l, is_question_line l = false) lines → blocks lines = [].
Proof.
  intros H. unfold blocks.
  rewrite <-(app_nil_r lines), (split_blocks_app_no_question _ [] H). done.
Qed.




(** X2. White space around the lines and blank lines do not matter to
    the loop: it reaches the same state on the lines as on their stripped,
    non-blank versions, and a blank line can be left out anywhere. *)
Theorem parse_lines_ignores_blanks (st : locals) (raws : list str) :
  parse_lines st raws = parse_lines st (stripped_lines raws)
  ∧ ∀ pre blank post,
      raws = pre ++ blank :: post → Py.strip blank = [] →
      parse_lines st raws = parse_lines st (pre ++ post).
Proof.
  split.
  - by rewrite !parse_lines_stripped, stripped_lines_idemp.
  - intros pre blank post -> Hb. rewrite !parse_lines_stripped.
    f_equal. rewrite !stripped_lines_app. f_equal.
    unfold stripped_lines. rewrite fmap_cons, filter_cons, Hb.
    by rewrite decide_False by (by intros ?).
Qed.

(** X3. Lines before the first new-question line, whatever their kind
    (option, answer, explanation or other text), do not change the
    entries the loop and the test after it produce. *)
Theorem parse_lines_ignores_preamble (pre rest : list str) :
  Forall (λ r, is_question_line (Py.strip r) = false) pre →
  (st ← parse_lines initial (pre ++ rest); append_current st)
  = (st ← parse_lines initial rest; append_current st).
Proof.
  intros H. rewrite !parse_lines_blocks, stripped_lines_app. f_equal.
  unfold blocks. rewrite split_blocks_app_no_question; [done|].
  by apply stripped_lines_Forall.
Qed.

Lemma parse_lines_ignores_preamble_witness :
  (st ← parse_lines initial ([Py.lit "Exam"; Py.lit "A) stray"; Py.lit "Answer: C"]
                             ++ [Py.lit "1. Q?"]); append_current st)
  = (st ← parse_lines initial [Py.lit "1. Q?"]; append_current st).
Proof.
  apply (parse_lines_ignores_preamble
           [Py.lit "Exam"; Py.lit "A) stray"; Py.lit "Answer: C"]).
  apply (bool_decide_unpack _). by vm_compute.
Defined.

(** X4. A document in which no line starts a question, such as an empty
    document or pages without text, leaves the table as it is and raises
    nothing. *)
Theorem parse_pdf_no_question (pages : list (option str)) (level subject : str)
    (db : store) :
  Forall (λ l, is_question_line l = false)
    (document_lines (document_text pages)) →
  parse_pdf pages level subject db = (db, None).
Proof.
  intros H. unfold parse_pdf. rewrite parse_text_blocks.
  rewrite (blocks_no_question _ H). done.
Qed.

Lemma parse_pdf_no_question_witness :
  parse_pdf [None; Some (lines_text ["A) a"; "B) b"; "C) c"; "D) d"; "Answer: B"]%string)]
    (Py.lit "easy") (Py.lit "math") sample_store
  = (sample_store, None).
Proof.
  apply parse_pdf_no_question. apply (bool_decide_unpack _). by vm_compute.
Defined.

(** * Pages and lines *)

Lemma stripped_lines_cons_nil raws : stripped_lines ([] :: raws) = stripped_lines raws.
Proof. done. Qed.

Lemma stripped_lines_line cur raws :
  stripped_lines (cur :: raws)
  = stripped_lines (match cur with [] => [] | _ => [cur] end) ++ stripped_lines raws.
Proof. destruct cur; [done|]. by rewrite <-stripped_lines_app. Qed.

Lemma splitlines_from_LF cur b :
  Py.splitlines_from cur (Py.LF :: b) = cur :: Py.splitlines b.
Proof. by destruct b. Qed.

(** A line feed between two texts separates their lines and adds at most
    a blank line. *)
Lemma splitlines_from_app_LF a : ∀ cur b,
  stripped_lines (Py.splitlines_from cur (a ++ Py.LF :: b))
  = stripped_lines (Py.splitlines_from cur a) ++ stripped_lines (Py.splitlines b).
Proof.
  remember (length a) as n eqn:Hn. revert a Hn.
  induction n as [n IH] using lt_wf_ind. intros a -> cur b.
  destruct a as [|c a].
  - change ([] ++ Py.LF :: b) with (Py.LF :: b). rewrite splitlines_from_LF.
    exact (stripped_lines_line cur (Py.splitlines b)).
  - cbn [app Py.splitlines_from]. destruct (Py.is_linebreak c) eqn:Hc.
    + rewrite !(stripped_lines_line cur), <-app_assoc. f_equal.
      destruct a as [|c' a].
      * simpl app. cbv iota beta. case_bool_decide as E.
        -- done.
        -- rewrite splitlines_from_LF. done.
      * cbn [app]. cbv iota beta. case_bool_decide as E.
        -- apply (IH (length a)); [simpl; lia|done].
        -- apply (IH (length (c' :: a)) ltac:(simpl; lia) (c' :: a) eq_refl).
    + apply (IH (length a)); [simpl; lia|done].
Qed.

Lemma document_lines_join p ps :
  document_lines (Py.join [Py.LF] (p :: ps))
  = document_lines p ++ document_lines (Py.join [Py.LF] ps).
Proof.
  unfold document_lines. destruct ps as [|p' ps].
  - simpl. by rewrite app_nil_r.
  - change (Py.join [Py.LF] (p :: p' :: ps))
      with (p ++ Py.LF :: Py.join [Py.LF] (p' :: ps)).
    apply splitlines_from_app_LF.
Qed.

(** X5. The non-blank lines of the document are those of its pages, page
    after page: joining the pages with line feeds separates the last line
    of a page from the first of the next and adds no line, and a page
    without text gives none. *)
Theorem document_lines_pages (pages : list (option str)) :
  document_lines (document_text pages)
  = pages ≫= (λ page, document_lines (default [] page)).
Proof.
  unfold document_text. induction pages as [|p pages IH]; [done|].
  rewrite fmap_cons, document_lines_join, IH. done.
Qed.

(** * What [parse_pdf] stores *)











(** * More on sampling *)






Section SamplingMore.
Variable randbelow : nat → nat.
Hypothesis randbelow_lt : ∀ n, 0 < n → randbelow n < n.


End SamplingMore.







(** * More on the quiz *)

Lemma grade_is_right max_str_digits q a score :
  grade max_str_digits q a score
  = if is_right max_str_digits (q, a) then ((score + 1)%Z, Correcto)
    else (score, Incorrecto (Question.explanation q)).
Proof. done. Qed.

Lemma transcript_cons max_str_digits q a qas :
  transcript max_str_digits ((q, a) :: qas)
  = Prompt q
    :: (if is_right max_str_digits (q, a) then Correcto
        else Incorrecto (Question.explanation q))
    :: transcript max_str_digits qas.
Proof. done. Qed.

Lemma right_answers_cons max_str_digits qa qas :
  right_answers max_str_digits (qa :: qas)
  = (if is_right max_str_digits qa then 1 else 0)
    + right_answers max_str_digits qas.
Proof.
  unfold right_answers. rewrite filter_cons.
  destruct (is_right max_str_digits qa); [by rewrite decide_True|].
  by rewrite decide_False.
Qed.

Lemma quiz_enough max_str_digits questions : ∀ stdin score,
  length questions ≤ length stdin →
  quiz max_str_digits questions stdin score
  = (transcript max_str_digits (zip questions stdin),
     Ok (score + Z.of_nat (right_answers max_str_digits (zip questions stdin)))%Z).
Proof.
  induction questions as [|q qs IH]; intros stdin score Hl.
  - simpl. by rewrite Z.add_0_r.
  - destruct stdin as [|a stdin]; [simpl in Hl; lia|].
    cbn [quiz zip zip_with]. fold (zip qs stdin).
    rewrite grade_is_right, transcript_cons, right_answers_cons.
    destruct (is_right max_str_digits (q, a));
      rewrite IH by (simpl in Hl; lia); do 2 f_equal; lia.
Qed.

Lemma quiz_eof max_str_digits questions : ∀ stdin score,
  length stdin < length questions →
  ∃ q, questions !! length stdin = Some q
       ∧ quiz max_str_digits questions stdin score
         = (transcript max_str_digits (zip questions stdin) ++ [Prompt q],
            Raise EOFError).
Proof.
  induction questions as [|q qs IH]; intros stdin score Hl; [simpl in Hl; lia|].
  destruct stdin as [|a stdin].
  - exists q. done.
  - destruct (IH stdin (grade max_str_digits q a score).1) as (q' & Hq' & Hquiz).
    { simpl in Hl. lia. }
    exists q'. split; [done|].
    cbn [quiz zip zip_with]. fold (zip qs stdin).
    rewrite transcript_cons. rewrite grade_is_right in Hquiz |- *.
    destruct (is_right max_str_digits (q, a)); simpl in Hquiz; by rewrite Hquiz.
Qed.

Lemma right_answers_le max_str_digits qas :
  right_answers max_str_digits qas ≤ length qas.
Proof. apply length_filter. Qed.

(** X10. When the input has at least as many lines as questions were
    drawn, [evaluate] raises nothing: for each question in the order drawn
    it prints the question and then [Correcto] or [Incorrecto] with the
    explanation according to the response at the same position, and it
    ends with the result, whose score is the number of right responses,
    at most the number of questions; further input lines are not used. *)
Theorem evaluate_complete (randbelow : nat → nat) (max_str_digits : N)
    (subject : option str) (num : Z) (db : store) (stdin : list str)
    (rows : list Question.t) :
  get_questions randbelow subject num db = Ok rows →
  rows ≠ [] →
  length rows ≤ length stdin →
  evaluate randbelow max_str_digits subject num db stdin
  = (transcript max_str_digits (zip rows stdin)
     ++ [Resultado (Z.of_nat (right_answers max_str_digits (zip rows stdin)))
           (length rows)], None)
  ∧ right_answers max_str_digits (zip rows stdin) ≤ length rows.
Proof.
  intros Hg Hne Hl. split.
  - unfold evaluate. rewrite Hg. destruct rows as [|q rows]; [done|].
    by rewrite quiz_enough.
  - etrans; [apply right_answers_le|]. rewrite length_zip. lia.
Qed.

Lemma evaluate_complete_witness :
  evaluate (λ _, 0) 4300 (Some (Py.lit "math")) 5 sample_store
    [Py.lit "2"; Py.lit "x"; Py.lit "unused"]
  = (transcript 4300
       (zip [sample_question 2 (Py.lit "two"); sample_question 1 (Py.lit "one")]
            [Py.lit "2"; Py.lit "x"; Py.lit "unused"])
     ++ [Resultado
           (Z.of_nat (right_answers 4300
              (zip [sample_question 2 (Py.lit "two"); sample_question 1 (Py.lit "one")]
                   [Py.lit "2"; Py.lit "x"; Py.lit "unused"])))
           (length [sample_question 2 (Py.lit "two"); sample_question 1 (Py.lit "one")])],
     None)
  ∧ right_answers 4300
      (zip [sample_question 2 (Py.lit "two"); sample_question 1 (Py.lit "one")]
           [Py.lit "2"; Py.lit "x"; Py.lit "unused"])
    ≤ length [sample_question 2 (Py.lit "two"); sample_question 1 (Py.lit "one")].
Proof.
  apply evaluate_complete.
  - by vm_compute.
  - intros H. discriminate H.
  - simpl. lia.
Defined.

(** X11. When the input has fewer lines than questions were drawn,
    [evaluate] handles the responses there are, prints the next question
    and ends with [EOFError]; no result is printed. *)
Theorem evaluate_input_ends (randbelow : nat → nat) (max_str_digits : N)
    (subject : option str) (num : Z) (db : store) (stdin : list str)
    (rows : list Question.t) :
  get_questions randbelow subject num db = Ok rows →
  length stdin < length rows →
  ∃ q, rows !! length stdin = Some q
       ∧ evaluate randbelow max_str_digits subject num db stdin
         = (transcript max_str_digits (zip rows stdin) ++ [Prompt q],
            Some EOFError).
Proof.
  intros Hg Hl.
  destruct (quiz_eof max_str_digits rows stdin 0 Hl) as (q & Hq & Hquiz).
  exists q. split; [done|]. unfold evaluate. rewrite Hg.
  destruct rows as [|q0 rows]; [simpl in Hl; lia|]. by rewrite Hquiz.
Qed.

Lemma evaluate_input_ends_witness :
  ∃ q, [sample_question 2 (Py.lit "two"); sample_question 1 (Py.lit "one")]
         !! length [Py.lit "2"] = Some q
       ∧ evaluate (λ _, 0) 4300 (Some (Py.lit "math")) 5 sample_store [Py.lit "2"]
         = (transcript 4300
              (zip [sample_question 2 (Py.lit "two"); sample_question 1 (Py.lit "one")]
                   [Py.lit "2"]) ++ [Prompt q],
            Some EOFError).
Proof.
  apply evaluate_input_ends.
  - by vm_compute.
  - simpl. lia.
Defined.





(** * Responses *)

Lemma int_around max_str_digits a s b :
  Forall (λ c, Py.int_space c = true) a →
  Forall (λ c, Py.int_space c = true) b →
  Py.int max_str_digits (a ++ s ++ b) = Py.int max_str_digits s.
Proof. intros Ha Hb. unfold Py.int. by rewrite strip_with_around. Qed.

(** X13. White space of [int] before and after a response does not
    change how the response is scored. *)
Theorem grade_ignores_spaces (max_str_digits : N) (q : Question.t)
    (a s b : str) (score : Z) :
  Forall (λ c, Py.int_space c = true) a →
  Forall (λ c, Py.int_space c = true) b →
  grade max_str_digits q (a ++ s ++ b) score = grade max_str_digits q s score.
Proof. intros Ha Hb. unfold grade, read_answer. by rewrite int_around. Qed.

Lemma grade_ignores_spaces_witness :
  grade 4300 (sample_question 2 []) (Py.lit "  " ++ Py.lit "2" ++ [9; 160]%N) 0
  = grade 4300 (sample_question 2 []) (Py.lit "2") 0.
Proof.
  apply grade_ignores_spaces; apply (bool_decide_unpack _); by vm_compute.
Defined.

(** X14. For a question whose [correct] is not 0, a response is scored
    as right exactly when [int] reads it as the number [correct], and a
    response [int] refuses is scored as wrong, with the explanation. *)
Theorem grade_answerable (max_str_digits : N) (q : Question.t) (ans : str)
    (score : Z) :
  Question.correct q ≠ 0%Z →
  (grade max_str_digits q ans score = ((score + 1)%Z, Correcto)
   ↔ Py.int max_str_digits ans = Some (Question.correct q))
  ∧ (Py.int max_str_digits ans = None →
     grade max_str_digits q ans score
     = (score, Incorrecto (Question.explanation q))).
Proof.
  intros Hc. unfold grade, read_answer.
  destruct (Py.int max_str_digits ans) as [n|]; simpl.
  - split; [|done]. case_bool_decide as E; split; try done.
    + by intros _; f_equal.
    + by intros [= ->].
  - split; [|by rewrite bool_decide_eq_false_2 by done].
    by rewrite bool_decide_eq_false_2 by done.
Qed.

Lemma grade_answerable_witness :
  (grade 4300 (sample_question 2 (Py.lit "e")) (Py.lit "two") 0
   = ((0 + 1)%Z, Correcto)
   ↔ Py.int 4300 (Py.lit "two") = Some (Question.correct (sample_question 2 (Py.lit "e"))))
  ∧ (Py.int 4300 (Py.lit "two") = None →
     grade 4300 (sample_question 2 (Py.lit "e")) (Py.lit "two") 0
     = (0%Z, Incorrecto (Question.explanation (sample_question 2 (Py.lit "e"))))).
Proof. apply grade_answerable. intros H. discriminate H. Defined.

Lemma check_columns_none columns required :
  check_columns columns required = None ↔ Forall (λ col, col ∈ columns) required.
Proof.
  induction required as [|col required IH]; simpl.
  - split; [constructor|done].
  - case_bool_decide as E.
    + rewrite IH, Forall_cons. tauto.
    + split; [done|]. by intros [? ?]%Forall_cons.
Qed.

Lemma check_columns_first columns before col after :
  Forall (λ c, c ∈ columns) before → col ∉ columns →
  check_columns columns (before ++ col :: after) = Some col.
Proof.
  induction 1 as [|c before Hc _ IH]; intros Hn; simpl.
  - by rewrite bool_decide_eq_false_2.
  - rewrite bool_decide_eq_true_2 by done. auto.
Qed.

Section ExcelFacts.
Context {cell : Type} (cell_str : cell → str) (cell_int : cell → option Z).

Lemma row_question_complete row z :
  complete_row row → row !! Py.lit "correct" ≫= cell_int = Some z →
  ∃ q, row_question cell_str cell_int row = inr q
       ∧ row_record cell_str cell_int row q
       ∧ Question.correct q = z.
Proof.
  intros Hc Hz. unfold complete_row, required_cols in Hc.
  rewrite !fmap_cons, !Forall_cons in Hc.
  destruct Hc as ([? H1] & [? H2] & [? H3] & [? H4] & [? H5] & [? H6]
                  & [? H7] & [c H8] & [? H9] & _).
  rewrite H8 in Hz. simpl in Hz.
  unfold row_question, row_get, row_record.
  rewrite H1, H2, H3, H4, H5, H6, H7, H8, H9. cbv [mbind excel_bind].
  rewrite Hz. eexists. split; [done|]. simpl. by rewrite Hz.
Qed.

Lemma row_question_not_int row :
  complete_row row → row !! Py.lit "correct" ≫= cell_int = None →
  row_question cell_str cell_int row = inl NotAnInt.
Proof.
  intros Hc Hz. unfold complete_row, required_cols in Hc.
  rewrite !fmap_cons, !Forall_cons in Hc.
  destruct Hc as ([? H1] & [? H2] & [? H3] & [? H4] & [? H5] & [? H6]
                  & [? H7] & [c H8] & [? H9] & _).
  rewrite H8 in Hz. simpl in Hz.
  unfold row_question, row_get.
  rewrite H1, H2, H3, H4, H5, H6, H7, H8. cbv [mbind excel_bind].
  by rewrite Hz.
Qed.

Lemma import_rows_importable rows : ∀ db,
  Forall (importable_row cell_int) rows →
  ∃ qs, import_rows cell_str cell_int rows db = (db ++ qs, None)
        ∧ Forall2 (row_record cell_str cell_int) rows qs.
Proof.
  induction rows as [|row rows IH]; intros db Hr.
  - exists []. by rewrite app_nil_r.
  - apply Forall_cons in Hr as [[Hrow (z & Hz & Hfit)] Hr].
    destruct (row_question_complete row z Hrow Hz) as (q & Hq & Hrec & Hcq).
    destruct (IH (db ++ [q]) Hr) as (qs & Hi & Hqs).
    exists (q :: qs). simpl. rewrite Hq. unfold add_question.
    rewrite Hcq, Hfit, Hi, <-app_assoc. split; [done|]. by constructor.
Qed.

Lemma import_rows_app rows1 rows2 db :
  import_rows cell_str cell_int (rows1 ++ rows2) db
  = match import_rows cell_str cell_int rows1 db with
    | (db', None) => import_rows cell_str cell_int rows2 db'
    | r => r
    end.
Proof.
  revert db. induction rows1 as [|row rows1 IH]; intros db; simpl; [done|].
  destruct (row_question cell_str cell_int row) as [|q]; [done|].
  destruct (add_question q db); [apply IH|done].
Qed.

End ExcelFacts.

(** X15. When a required column is missing, [import_excel] raises the
    error naming the first missing column in the order of
    [required_cols], before any row is read: the table is unchanged. *)
Theorem import_excel_missing_column {cell : Type} (cell_str : cell → str)
    (cell_int : cell → option Z) (df : dataframe cell) (db : store)
    (before : list str) (col : str) (after : list str) :
  required_cols = before ++ col :: after →
  Forall (λ c, c ∈ df_columns df) before →
  col ∉ df_columns df →
  import_excel cell_str cell_int df db = (db, Some (MissingColumn col)).
Proof.
  intros Hreq Hb Hc. unfold import_excel.
  by rewrite Hreq, (check_columns_first _ _ _ _ Hb Hc).
Qed.

(** X16. When the frame has every required column and every row has a
    cell for each of them, with a [correct] cell that [int] reads as an
    integer of at most 64 bits with sign, [import_excel] raises nothing
    and appends one record per row, in the order of the rows, each field
    being the conversion of the cell of its column. *)
Theorem import_excel_all_rows {cell : Type} (cell_str : cell → str)
    (cell_int : cell → option Z) (df : dataframe cell) (db : store) :
  Forall (λ col, col ∈ df_columns df) required_cols →
  Forall (importable_row cell_int) (df_rows df) →
  ∃ qs, import_excel cell_str cell_int df db = (db ++ qs, None)
        ∧ Forall2 (row_record cell_str cell_int) (df_rows df) qs.
Proof.
  intros Hc%check_columns_none Hr. unfold import_excel. rewrite Hc.
  by apply import_rows_importable.
Qed.

(** X17. When [int] refuses the [correct] cell of a row, and the rows
    before it are complete with [correct] cells that [int] reads as
    integers of at most 64 bits with sign, [import_excel] ends with the
    exception of [int], the records of the rows before stay in the table,
    and neither that row nor a later one is stored. *)
Theorem import_excel_stops {cell : Type} (cell_str : cell → str)
    (cell_int : cell → option Z) (df : dataframe cell) (db : store)
    (good : list (gmap str cell)) (bad : gmap str cell)
    (rest : list (gmap str cell)) :
  Forall (λ col, col ∈ df_columns df) required_cols →
  df_rows df = good ++ bad :: rest →
  Forall (importable_row cell_int) good →
  complete_row bad →
  bad !! Py.lit "correct" ≫= cell_int = None →
  ∃ qs, import_excel cell_str cell_int df db = (db ++ qs, Some NotAnInt)
        ∧ Forall2 (row_record cell_str cell_int) good qs.
Proof.
  intros Hc%check_columns_none Hrows Hgood Hbad Hint.
  unfold import_excel. rewrite Hc, Hrows, import_rows_app.
  destruct (import_rows_importable cell_str cell_int good db Hgood)
    as (qs & -> & Hqs).
  exists qs. split; [|done]. simpl.
  by rewrite (row_question_not_int cell_str cell_int bad Hbad Hint).
Qed.

(** X18. When [int] reads the [correct] cell of a row as an integer
    that does not fit 64 bits with sign, and the rows before it are
    complete with [correct] cells that do fit, [import_excel] ends with
    the [OverflowError] of the [INSERT], the records of the rows before
    stay in the table, and neither that row nor a later one is stored. *)
Theorem import_excel_overflow {cell : Type} (cell_str : cell → str)
    (cell_int : cell → option Z) (df : dataframe cell) (db : store)
    (good : list (gmap str cell)) (bad : gmap str cell)
    (rest : list (gmap str cell)) (z : Z) :
  Forall (λ col, col ∈ df_columns df) required_cols →
  df_rows df = good ++ bad :: rest →
  Forall (importable_row cell_int) good →
  complete_row bad →
  bad !! Py.lit "correct" ≫= cell_int = Some z →
  ¬ (- 2 ^ 63 ≤ z < 2 ^ 63)%Z →
  ∃ qs, import_excel cell_str cell_int df db = (db ++ qs, Some IntegerOverflow)
        ∧ Forall2 (row_record cell_str cell_int) good qs.
Proof.
  intros Hc%check_columns_none Hrows Hgood Hbad Hint Hz.
  unfold import_excel. rewrite Hc, Hrows, import_rows_app.
  destruct (import_rows_importable cell_str cell_int good db Hgood)
    as (qs & -> & Hqs).
  exists qs. split; [|done]. simpl.
  destruct (row_question_complete cell_str cell_int bad z Hbad Hint)
    as (q & -> & _ & Hq).
  unfold add_question, sqlite_integer. rewrite Hq.
  destruct (- 2 ^ 63 <=? z)%Z eqn:E1; [|done].
  destruct (z <? 2 ^ 63)%Z eqn:E2; [|done].
  apply Z.leb_le in E1. apply Z.ltb_lt in E2. lia.
Qed.

Lemma import_excel_missing_column_witness :
  import_excel id (Py.int 4300)
    (DataFrame [Py.lit "level"; Py.lit "subject"; Py.lit "correct"]
               [text_row "math" "2"])
    sample_store
  = (sample_store, Some (MissingColumn (Py.lit "text"))).
Proof.
  apply (import_excel_missing_column id (Py.int 4300) _ _
           [Py.lit "level"; Py.lit "subject"] (Py.lit "text")
           (Py.lit <$> ["option1"; "option2"; "option3"; "option4"; "correct";
                        "explanation"]%string)).
  - reflexivity.
  - apply (bool_decide_unpack _). by vm_compute.
  - apply (bool_decide_unpack _). by vm_compute.
Defined.

Lemma text_row_importable subject :
  importable_row (Py.int 4300) (text_row subject "2").
Proof.
  split; [apply (bool_decide_unpack _); by vm_compute|].
  exists 2%Z. split; by vm_compute.
Defined.

Lemma import_excel_all_rows_witness :
  ∃ qs,
    import_excel id (Py.int 4300)
      (text_frame [text_row "math" "2"; text_row "art" "2"]) sample_store
    = (sample_store ++ qs, None)
    ∧ Forall2 (row_record id (Py.int 4300))
        (df_rows (text_frame [text_row "math" "2"; text_row "art" "2"])) qs.
Proof.
  apply import_excel_all_rows.
  - apply (bool_decide_unpack _). by vm_compute.
  - repeat (apply Forall_cons; split; [apply text_row_importable|]).
    apply Forall_nil_2.
Defined.

Lemma import_excel_stops_witness :
  ∃ qs,
    import_excel id (Py.int 4300)
      (text_frame [text_row "math" "2"; text_row "math" "B"; text_row "art" "2"])
      sample_store
    = (sample_store ++ qs, Some NotAnInt)
    ∧ Forall2 (row_record id (Py.int 4300)) [text_row "math" "2"] qs.
Proof.
  apply (import_excel_stops id (Py.int 4300) _ _ [text_row "math" "2"]
           (text_row "math" "B") [text_row "art" "2"]).
  - apply (bool_decide_unpack _). by vm_compute.
  - reflexivity.
  - apply Forall_cons; split; [apply text_row_importable|apply Forall_nil_2].
  - apply (bool_decide_unpack _). by vm_compute.
  - by vm_compute.
Defined.

Lemma import_excel_overflow_witness :
  ∃ qs,
    import_excel id (Py.int 4300)
      (text_frame [text_row "math" "2"; text_row "math" "9223372036854775808";
                   text_row "art" "2"])
      sample_store
    = (sample_store ++ qs, Some IntegerOverflow)
    ∧ Forall2 (row_record id (Py.int 4300)) [text_row "math" "2"] qs.
Proof.
  apply (import_excel_overflow id (Py.int 4300) _ _ [text_row "math" "2"]
           (text_row "math" "9223372036854775808") [text_row "art" "2"]
           9223372036854775808).
  - apply (bool_decide_unpack _). by vm_compute.
  - reflexivity.
  - apply Forall_cons; split; [apply text_row_importable|apply Forall_nil_2].
  - apply (bool_decide_unpack _). by vm_compute.
  - by vm_compute.
  - intros [_ H]. discriminate H.
Defined.
